(** * Subscription service: repository layer and its query semantics

    A shallow embedding of the Go package [repository] (the subscription
    store and the cost aggregator), of the month check [isValidMonthYear]
    and of the creation handler, together with an executable model of the
    statements they send to the [subscriptions] table. *)

From Stdlib Require Import ZArith List String Ascii Bool Lia.
From Stdlib Require Import Sorting.Sorted Sorting.Permutation.
From Stdlib Require Import OrderedTypeEx.
From Stdlib Require Import DecimalString.
Import ListNotations.
Open Scope string_scope.
Open Scope Z_scope.

(** ** Go strings: byte indexing and slicing *)

Module GoString.

(** [len(s)] *)
Definition len (s : string) : Z := Z.of_nat (String.length s).

(** [s[n:]] for [n <= len(s)] *)
Fixpoint from (n : nat) (s : string) : string :=
  match n, s with
  | O, _ => s
  | S n', String _ s' => from n' s'
  | S _, EmptyString => EmptyString
  end.

(** [s[0:n]] for [n <= len(s)] *)
Fixpoint upto (n : nat) (s : string) : string :=
  match n, s with
  | O, _ => EmptyString
  | S n', String c s' => String c (upto n' s')
  | S _, EmptyString => EmptyString
  end.

(** the byte [s[i]] as an unsigned 8-bit number *)
Definition byte_at (s : string) (i : nat) : option Z :=
  match String.get i s with
  | Some c => Some (Z.of_nat (nat_of_ascii c))
  | None => None
  end.

Definition byte (c : ascii) : Z := Z.of_nat (nat_of_ascii c).

End GoString.

(** ** The part of Go's [time.Parse] that the layout ["01-2006"] runs *)

Module GoTime.
Import GoString.

(** [isDigit(s, i)]: [i] is in range and [s[i]] is a decimal digit. *)
Definition isDigit (s : string) (i : nat) : bool :=
  match byte_at s i with
  | None => false
  | Some c => (48 <=? c) && (c <=? 57)
  end.

(** [getnum(s, fixed)]: a leading number of one or two digits; with
    [fixed] exactly two digits are required.  [None] is [errBad]. *)
Definition getnum (s : string) (fixed : bool) : option (Z * string) :=
  if negb (isDigit s 0) then None
  else if negb (isDigit s 1) then
    if fixed then None
    else match byte_at s 0 with
         | Some c0 => Some ((c0 - 48) mod 256, from 1 s)
         | None => None
         end
  else match byte_at s 0, byte_at s 1 with
       | Some c0, Some c1 =>
           Some (((c0 - 48) mod 256) * 10 + ((c1 - 48) mod 256), from 2 s)
       | _, _ => None
       end.

(** [cutspace(s)]: drop the leading spaces. *)
Fixpoint cutspace (s : string) : string :=
  match s with
  | String c s' => if Ascii.eqb c " " then cutspace s' else s
  | EmptyString => EmptyString
  end.

(** [skip(value, prefix)]: remove the literal [prefix] from [value]; a
    space in the prefix matches any run of spaces.  The loop runs at most
    [len(prefix)] times, which is the fuel. *)
Fixpoint skip_loop (fuel : nat) (value prefix : string) : option string :=
  match prefix with
  | EmptyString => Some value
  | String p prefix' =>
      match fuel with
      | O => None
      | S fuel' =>
          if Ascii.eqb p " " then
            match value with
            | String v _ =>
                if negb (Ascii.eqb v " ") then None
                else skip_loop fuel' (cutspace value) (cutspace prefix)
            | EmptyString => skip_loop fuel' (cutspace value) (cutspace prefix)
            end
          else
            match value with
            | String v value' =>
                if Ascii.eqb v p then skip_loop fuel' value' prefix' else None
            | EmptyString => None
            end
      end
  end.

Definition skip (value prefix : string) : option string :=
  skip_loop (String.length prefix) value prefix.

(** [leadingInt(s)]: the leading decimal digits of [s] as an unsigned
    64-bit number, and the rest; [None] is [errLeadingInt] (overflow). *)
Fixpoint leadingInt_loop (x : Z) (s : string) : option (Z * string) :=
  match s with
  | EmptyString => Some (x, EmptyString)
  | String c s' =>
      if (byte c <? 48) || (57 <? byte c) then Some (x, s)
      else if (2 ^ 63) / 10 <? x then None
      else
        let x' := (x * 10 + byte c - 48) mod 2 ^ 64 in
        if 2 ^ 63 <? x' then None else leadingInt_loop x' s'
  end.

Definition leadingInt (s : string) : option (Z * string) :=
  leadingInt_loop 0 s.

(** [atoi(s)]: an optional sign and then digits only.  [None] is [errAtoi]. *)
Definition atoi (s : string) : option Z :=
  let '(neg, s) :=
    match s with
    | String c s' =>
        if Ascii.eqb c "-" then (true, s')
        else if Ascii.eqb c "+" then (false, s')
        else (false, s)
    | EmptyString => (false, s)
    end in
  match leadingInt s with
  | None => None
  | Some (q, rem) =>
      if negb (String.length rem =? 0)%nat then None
      else Some (if neg then - q else q)
  end.

(** [daysIn(m, year)] *)
Definition isLeap (year : Z) : bool :=
  (year mod 4 =? 0) && (negb (year mod 100 =? 0) || (year mod 400 =? 0)).

Definition daysIn (m year : Z) : Z :=
  if (m =? 2) then (if isLeap year then 29 else 28)
  else if (m =? 4) || (m =? 6) || (m =? 9) || (m =? 11) then 30 else 31.

(** [time.Parse("01-2006", value)], following the three chunks that
    [nextStdChunk] cuts the layout into:
    - prefix [""], [stdZeroMonth], rest ["-2006"];
    - prefix ["-"], [stdLongYear], rest [""];
    - prefix [""], no further element: the value must be used up.
    The result is the parsed (month, year); [None] stands for the
    [*ParseError] Go returns. *)
Definition Parse_01_2006 (value : string) : option (Z * Z) :=
  match skip value "" with
  | None => None
  | Some value =>
  match getnum value true with
  | None => None
  | Some (month, value) =>
  if (month <=? 0) || (12 <? month) then None (* month out of range *)
  else
  match skip value "-" with
  | None => None
  | Some value =>
  if (len value <? 4) || negb (isDigit value 0) then None
  else
    let p := upto 4 value in
    let value := from 4 value in
    match atoi p with
    | None => None
    | Some year =>
    match skip value "" with
    | None => None
    | Some value =>
    if negb (len value =? 0) then None (* extra text *)
    else
      let day := 1 in
      if (day <? 1) || (daysIn month year <? day) then None
      else Some (month, year)
    end
    end
  end
  end
  end.

End GoTime.

(** [isValidMonthYear] (the same function in the repository and in the
    handler package). *)
Definition isValidMonthYear (s : string) : bool :=
  match GoTime.Parse_01_2006 s with
  | Some _ => true
  | None => false
  end.

(** ** The data model: package [model] *)

(** [uuid.UUID] is a [16]byte array; it is kept as the 128-bit number it
    spells. *)
Definition UUID := N.

Record Subscription := mkSubscription {
  ID : UUID;
  ServiceName : string;
  Price : Z;
  UserID : UUID;
  StartDate : string;
  EndDate : option string
}.

(** Go's [error] values that the repository can return. *)
Inductive pq_error :=
| syntax_error
| undefined_table
| undefined_column
| undefined_parameter
| datatype_mismatch
| not_null_violation
| check_violation
| unique_violation
| feature_not_supported
| numeric_value_out_of_range       (* a number outside the range of its column *)
| character_not_in_repertoire.     (* "invalid byte sequence for encoding" *)

Inductive error :=
| ErrInvalidMonth            (* "некорректный формат месяца: должен быть MM-YYYY" *)
| ErrNotFound (id : UUID)    (* "подписка с ID %s не найдена" *)
| ErrNoRows                  (* sql.ErrNoRows *)
| ErrScan                    (* the result does not fit the destination *)
| ErrMissingName (n : string)(* sqlx: no field for a named parameter *)
| ErrPq (e : pq_error).      (* an error reported by the database *)

Inductive result (A : Type) :=
| Ok (a : A)
| Err (e : error).
Arguments Ok {A} a.
Arguments Err {A} e.

(** ** The statements the table understands

    The store is PostgreSQL behind [sqlx]; what follows is the fragment of
    SQL that the repository writes, read from the statement text: a lexer,
    a parser and an evaluator over the rows of [subscriptions].  The
    connection is taken to be up and strings to compare byte by byte.
    INSERT, UPDATE and DELETE refuse an argument that does not fit the
    type of its column: an integer outside the INTEGER range, a text that
    is not valid in the encoding of the database (UTF-8).  The text
    arguments of a SELECT, which are the filters and the months, are taken
    to be such valid text. *)

Module Sql.

Inductive value :=
| VNull
| VInt (z : Z)
| VText (s : string)
| VUuid (u : UUID).

(** *** Lexer *)

Inductive token :=
| TWord (w : string)
| TLParen | TRParen | TComma | TStar
| TEq | TGe | TLe | TGt | TLt.

Definition is_space (c : ascii) : bool :=
  Ascii.eqb c " " || Ascii.eqb c "009" || Ascii.eqb c "010" || Ascii.eqb c "013".

Definition flush (word : string) : list token :=
  match word with
  | EmptyString => []
  | _ => [TWord word]
  end.

Definition snoc (word : string) (c : ascii) : string :=
  word ++ String c EmptyString.

Fixpoint lex (word : string) (s : string) : list token :=
  match s with
  | EmptyString => flush word
  | String c s' =>
      if is_space c then (flush word ++ lex "" s')%list
      else if Ascii.eqb c "(" then flush word ++ TLParen :: lex "" s'
      else if Ascii.eqb c ")" then flush word ++ TRParen :: lex "" s'
      else if Ascii.eqb c "," then flush word ++ TComma :: lex "" s'
      else if Ascii.eqb c "*" then flush word ++ TStar :: lex "" s'
      else if Ascii.eqb c "=" then flush word ++ TEq :: lex "" s'
      else if Ascii.eqb c ">" then
        match s' with
        | String d s'' =>
            if Ascii.eqb d "=" then flush word ++ TGe :: lex "" s''
            else flush word ++ TGt :: lex "" s'
        | EmptyString => flush word ++ [TGt]
        end
      else if Ascii.eqb c "<" then
        match s' with
        | String d s'' =>
            if Ascii.eqb d "=" then flush word ++ TLe :: lex "" s''
            else flush word ++ TLt :: lex "" s'
        | EmptyString => flush word ++ [TLt]
        end
      else lex (snoc word c) s'
  end.

Definition tokens (query : string) : list token := lex "" query.

(** *** Syntax *)

Inductive operand :=
| OCol (c : string)
| OParam (n : nat)          (* $n *)
| ONamed (name : string)    (* :name, before sqlx binds it *)
| OInt (z : Z).

Inductive cmpop := CmpEq | CmpGe | CmpLe | CmpGt | CmpLt.

Inductive expr :=
| ECmp (a : operand) (op : cmpop) (b : operand)
| EIsNull (a : operand)
| EAnd (a b : expr)
| EOr (a b : expr).

Inductive select_list :=
| SelStar                                    (* * *)
| SelCoalesceSum (col : string) (dflt : Z).  (* COALESCE(SUM(col), dflt) *)

Inductive order_by :=
| Desc (col : string).

Inductive stmt :=
| Select (what : select_list) (table : string) (cond : expr) (order : option order_by)
| Insert (table : string) (cols : list string) (vals : list operand)
| Update (table : string) (sets : list (string * operand)) (cond : expr)
| Delete (table : string) (cond : expr).

(** *** Parser *)

Definition digit_of (c : ascii) : option nat :=
  let n := nat_of_ascii c in
  if ((48 <=? n) && (n <=? 57))%nat then Some (n - 48)%nat else None.

Fixpoint nat_of_digits (acc : nat) (s : string) : option nat :=
  match s with
  | EmptyString => Some acc
  | String c s' =>
      match digit_of c with
      | Some d => nat_of_digits (10 * acc + d) s'
      | None => None
      end
  end.

Definition parse_nat (s : string) : option nat :=
  match s with
  | EmptyString => None
  | _ => nat_of_digits 0 s
  end.

Definition parse_operand (w : string) : option operand :=
  match w with
  | EmptyString => None
  | String c w' =>
      if Ascii.eqb c "$" then option_map OParam (parse_nat w')
      else if Ascii.eqb c ":" then
        match w' with EmptyString => None | _ => Some (ONamed w') end
      else match digit_of c with
           | Some _ => option_map (fun n => OInt (Z.of_nat n)) (parse_nat w)
           | None => Some (OCol w)
           end
  end.

Definition parse_cmpop (t : token) : option cmpop :=
  match t with
  | TEq => Some CmpEq
  | TGe => Some CmpGe
  | TLe => Some CmpLe
  | TGt => Some CmpGt
  | TLt => Some CmpLt
  | _ => None
  end.

Definition is_word (w : string) (t : token) : bool :=
  match t with
  | TWord w' => String.eqb w w'
  | _ => false
  end.

(** A comparison [a op b] or a test [a IS NULL]. *)
Definition parse_predicate (ts : list token) : option (expr * list token) :=
  match ts with
  | TWord a :: t1 :: t2 :: rest =>
      if is_word "IS" t1 && is_word "NULL" t2 then
        option_map (fun a => (EIsNull a, rest)) (parse_operand a)
      else
        match parse_operand a, parse_cmpop t1, t2 with
        | Some a, Some op, TWord b =>
            option_map (fun b => (ECmp a op b, rest)) (parse_operand b)
        | _, _, _ => None
        end
  | _ => None
  end.

(** Conditions: predicates, parentheses, AND binding tighter than OR. *)
Fixpoint parse_or (fuel : nat) (ts : list token) : option (expr * list token) :=
  match fuel with
  | O => None
  | S fuel =>
      let parse_atom ts :=
        match ts with
        | TLParen :: rest =>
            match parse_or fuel rest with
            | Some (e, TRParen :: rest') => Some (e, rest')
            | _ => None
            end
        | _ => parse_predicate ts
        end in
      let parse_and :=
        (fix parse_and (n : nat) (ts : list token) : option (expr * list token) :=
           match parse_atom ts with
           | Some (e, t :: rest) =>
               if is_word "AND" t then
                 match n with
                 | O => None
                 | S n =>
                     match parse_and n rest with
                     | Some (e', rest') => Some (EAnd e e', rest')
                     | None => None
                     end
                 end
               else Some (e, t :: rest)
           | r => r
           end) in
      match parse_and fuel ts with
      | Some (e, t :: rest) =>
          if is_word "OR" t then
            match parse_or fuel rest with
            | Some (e', rest') => Some (EOr e e', rest')
            | None => None
            end
          else Some (e, t :: rest)
      | r => r
      end
  end.

Definition parse_cond (ts : list token) : option (expr * list token) :=
  parse_or (S (List.length ts)) ts.

(** [expect ws ts]: the tokens start with the words [ws]; what follows. *)
Fixpoint expect (ws : list string) (ts : list token) : option (list token) :=
  match ws with
  | [] => Some ts
  | w :: ws' =>
      match ts with
      | t :: ts' => if is_word w t then expect ws' ts' else None
      | [] => None
      end
  end.

(** A parenthesised, comma-separated list of words. *)
Fixpoint parse_words (ts : list token) : option (list string * list token) :=
  match ts with
  | TWord w :: TComma :: rest =>
      match parse_words rest with
      | Some (ws, rest') => Some (w :: ws, rest')
      | None => None
      end
  | TWord w :: TRParen :: rest => Some ([w], rest)
  | _ => None
  end.

Definition parse_word_list (ts : list token) : option (list string * list token) :=
  match ts with
  | TLParen :: rest => parse_words rest
  | _ => None
  end.

Fixpoint parse_operands (ws : list string) : option (list operand) :=
  match ws with
  | [] => Some []
  | w :: ws' =>
      match parse_operand w, parse_operands ws' with
      | Some o, Some os => Some (o :: os)
      | _, _ => None
      end
  end.

(** [col = operand, col = operand, ...] *)
Fixpoint parse_sets (ts : list token) : option (list (string * operand) * list token) :=
  match ts with
  | TWord c :: TEq :: TWord v :: rest =>
      match parse_operand v with
      | None => None
      | Some o =>
          match rest with
          | TComma :: rest' =>
              match parse_sets rest' with
              | Some (sets, rest'') => Some ((c, o) :: sets, rest'')
              | None => None
              end
          | _ => Some ([(c, o)], rest)
          end
      end
  | _ => None
  end.

Definition parse_select_list (ts : list token) : option (select_list * list token) :=
  match ts with
  | TStar :: rest => Some (SelStar, rest)
  | TWord f :: TLParen :: TWord g :: TLParen :: TWord col :: TRParen
      :: TComma :: TWord d :: TRParen :: rest =>
      if String.eqb f "COALESCE" && String.eqb g "SUM" then
        match parse_operand d with
        | Some (OInt z) => Some (SelCoalesceSum col z, rest)
        | _ => None
        end
      else None
  | _ => None
  end.

Definition parse_order (ts : list token) : option (option order_by) :=
  match ts with
  | [] => Some None
  | [TWord o; TWord b; TWord col; TWord d] =>
      if String.eqb o "ORDER" && String.eqb b "BY" && String.eqb d "DESC"
      then Some (Some (Desc col)) else None
  | _ => None
  end.

Definition parse_stmt (ts : list token) : option stmt :=
  match ts with
  | TWord kw :: ts =>
      if String.eqb kw "SELECT" then
        match parse_select_list ts with
        | Some (what, TWord from :: TWord table :: TWord where_ :: ts) =>
            if String.eqb from "FROM" && String.eqb where_ "WHERE" then
              match parse_cond ts with
              | Some (cond, ts) =>
                  option_map (Select what table cond) (parse_order ts)
              | None => None
              end
            else None
        | _ => None
        end
      else if String.eqb kw "INSERT" then
        match ts with
        | TWord into :: TWord table :: ts =>
            if String.eqb into "INTO" then
              match parse_word_list ts with
              | Some (cols, TWord values :: ts) =>
                  if String.eqb values "VALUES" then
                    match parse_word_list ts with
                    | Some (ws, []) => option_map (Insert table cols) (parse_operands ws)
                    | _ => None
                    end
                  else None
              | _ => None
              end
            else None
        | _ => None
        end
      else if String.eqb kw "UPDATE" then
        match ts with
        | TWord table :: TWord set :: ts =>
            if String.eqb set "SET" then
              match parse_sets ts with
              | Some (sets, TWord where_ :: ts) =>
                  if String.eqb where_ "WHERE" then
                    match parse_cond ts with
                    | Some (cond, []) => Some (Update table sets cond)
                    | _ => None
                    end
                  else None
              | _ => None
              end
            else None
        | _ => None
        end
      else if String.eqb kw "DELETE" then
        match ts with
        | TWord from :: TWord table :: TWord where_ :: ts =>
            if String.eqb from "FROM" && String.eqb where_ "WHERE" then
              match parse_cond ts with
              | Some (cond, []) => Some (Delete table cond)
              | _ => None
              end
            else None
        | _ => None
        end
      else None
  | _ => None
  end.

(** *** Evaluation over the rows of [subscriptions] *)

(** The columns of the table (the migration's CREATE TABLE):
    id UUID PRIMARY KEY, service_name TEXT NOT NULL,
    price INTEGER NOT NULL CHECK (price > 0), user_id UUID NOT NULL,
    start_date TEXT NOT NULL, end_date TEXT. *)
Definition column (r : Subscription) (c : string) : option value :=
  if String.eqb c "id" then Some (VUuid (ID r))
  else if String.eqb c "service_name" then Some (VText (ServiceName r))
  else if String.eqb c "price" then Some (VInt (Price r))
  else if String.eqb c "user_id" then Some (VUuid (UserID r))
  else if String.eqb c "start_date" then Some (VText (StartDate r))
  else if String.eqb c "end_date" then
    Some (match EndDate r with Some d => VText d | None => VNull end)
  else None.

Definition set_column (r : Subscription) (c : string) (v : value) : result Subscription :=
  let mismatch := Err (ErrPq (match v with VNull => not_null_violation
                                         | _ => datatype_mismatch end)) in
  if String.eqb c "id" then
    match v with
    | VUuid u => Ok (mkSubscription u (ServiceName r) (Price r) (UserID r) (StartDate r) (EndDate r))
    | _ => mismatch
    end
  else if String.eqb c "service_name" then
    match v with
    | VText t => Ok (mkSubscription (ID r) t (Price r) (UserID r) (StartDate r) (EndDate r))
    | _ => mismatch
    end
  else if String.eqb c "price" then
    match v with
    | VInt z => Ok (mkSubscription (ID r) (ServiceName r) z (UserID r) (StartDate r) (EndDate r))
    | _ => mismatch
    end
  else if String.eqb c "user_id" then
    match v with
    | VUuid u => Ok (mkSubscription (ID r) (ServiceName r) (Price r) u (StartDate r) (EndDate r))
    | _ => mismatch
    end
  else if String.eqb c "start_date" then
    match v with
    | VText t => Ok (mkSubscription (ID r) (ServiceName r) (Price r) (UserID r) t (EndDate r))
    | _ => mismatch
    end
  else if String.eqb c "end_date" then
    match v with
    | VText t => Ok (mkSubscription (ID r) (ServiceName r) (Price r) (UserID r) (StartDate r) (Some t))
    | VNull => Ok (mkSubscription (ID r) (ServiceName r) (Price r) (UserID r) (StartDate r) None)
    | _ => Err (ErrPq datatype_mismatch)
    end
  else Err (ErrPq undefined_column).

(** The CHECK constraint of the table. *)
Definition check_row (r : Subscription) : bool := 0 <? Price r.

Definition id_eqb (a b : UUID) : bool := N.eqb a b.

Definition has_id (id : UUID) (rows : list Subscription) : bool :=
  existsb (fun r => id_eqb (ID r) id) rows.

Fixpoint unique_ids (rows : list Subscription) : bool :=
  match rows with
  | [] => true
  | r :: rows' => negb (has_id (ID r) rows') && unique_ids rows'
  end.

Definition eval_operand (args : list value) (row : option Subscription) (o : operand)
  : result value :=
  match o with
  | OCol c =>
      match row with
      | Some r =>
          match column r c with
          | Some v => Ok v
          | None => Err (ErrPq undefined_column)
          end
      | None => Err (ErrPq undefined_column)
      end
  | OParam n =>
      match n with
      | O => Err (ErrPq undefined_parameter)
      | S k =>
          match nth_error args k with
          | Some v => Ok v
          | None => Err (ErrPq undefined_parameter)
          end
      end
  | ONamed _ => Err (ErrPq syntax_error)
  | OInt z => Ok (VInt z)
  end.

(** Comparison inside one type; [None] when an operand is NULL. *)
Definition compare_values (a b : value) : result (option comparison) :=
  match a, b with
  | VNull, _ => Ok None
  | _, VNull => Ok None
  | VInt x, VInt y => Ok (Some (x ?= y))
  | VText x, VText y => Ok (Some (String.compare x y))
  | VUuid x, VUuid y => Ok (Some (x ?= y)%N)
  | _, _ => Err (ErrPq datatype_mismatch)
  end.

Definition holds (op : cmpop) (c : comparison) : bool :=
  match op, c with
  | CmpEq, Eq => true
  | CmpEq, _ => false
  | CmpGe, Lt => false
  | CmpGe, _ => true
  | CmpLe, Gt => false
  | CmpLe, _ => true
  | CmpGt, Gt => true
  | CmpGt, _ => false
  | CmpLt, Lt => true
  | CmpLt, _ => false
  end.

(** SQL's three-valued connectives; [None] is "unknown". *)
Definition and3 (a b : option bool) : option bool :=
  match a, b with
  | Some false, _ => Some false
  | _, Some false => Some false
  | Some true, Some true => Some true
  | _, _ => None
  end.

Definition or3 (a b : option bool) : option bool :=
  match a, b with
  | Some true, _ => Some true
  | _, Some true => Some true
  | Some false, Some false => Some false
  | _, _ => None
  end.

Fixpoint eval_expr (args : list value) (r : Subscription) (e : expr)
  : result (option bool) :=
  match e with
  | ECmp a op b =>
      match eval_operand args (Some r) a, eval_operand args (Some r) b with
      | Ok va, Ok vb =>
          match compare_values va vb with
          | Ok c => Ok (option_map (holds op) c)
          | Err e => Err e
          end
      | Err e, _ => Err e
      | _, Err e => Err e
      end
  | EIsNull a =>
      match eval_operand args (Some r) a with
      | Ok VNull => Ok (Some true)
      | Ok _ => Ok (Some false)
      | Err e => Err e
      end
  | EAnd a b =>
      match eval_expr args r a, eval_expr args r b with
      | Ok x, Ok y => Ok (and3 x y)
      | Err e, _ => Err e
      | _, Err e => Err e
      end
  | EOr a b =>
      match eval_expr args r a, eval_expr args r b with
      | Ok x, Ok y => Ok (or3 x y)
      | Err e, _ => Err e
      | _, Err e => Err e
      end
  end.

(** A row is selected when the condition is true (not false, not unknown). *)
Definition selected (args : list value) (cond : expr) (r : Subscription) : result bool :=
  match eval_expr args r cond with
  | Ok (Some true) => Ok true
  | Ok _ => Ok false
  | Err e => Err e
  end.

Fixpoint where_rows (args : list value) (cond : expr) (rows : list Subscription)
  : result (list Subscription) :=
  match rows with
  | [] => Ok []
  | r :: rows' =>
      match selected args cond r, where_rows args cond rows' with
      | Ok b, Ok rs => Ok (if b then r :: rs else rs)
      | Err e, _ => Err e
      | _, Err e => Err e
      end
  end.

(** ORDER BY col DESC: a total preorder on the values of a column, NULL
    first as PostgreSQL has it for DESC. *)
Definition value_geb (a b : value) : bool :=
  match a, b with
  | VNull, _ => true
  | _, VNull => false
  | VInt x, VInt y => y <=? x
  | VText x, VText y => String.leb y x
  | VUuid x, VUuid y => (y <=? x)%N
  | VInt _, _ => true
  | _, VInt _ => false
  | VText _, _ => true
  | _, VText _ => false
  end.

Definition desc_by (col : string) (a b : Subscription) : bool :=
  match column a col, column b col with
  | Some va, Some vb => value_geb va vb
  | _, _ => true
  end.

Fixpoint insert_sorted (before : Subscription -> Subscription -> bool)
         (x : Subscription) (l : list Subscription) : list Subscription :=
  match l with
  | [] => [x]
  | y :: l' => if before x y then x :: y :: l' else y :: insert_sorted before x l'
  end.

Fixpoint sort_rows (before : Subscription -> Subscription -> bool)
         (l : list Subscription) : list Subscription :=
  match l with
  | [] => []
  | x :: l' => insert_sorted before x (sort_rows before l')
  end.

(** SUM skips NULLs and is NULL over no value at all. *)
Fixpoint sum_values (vs : list value) : result (option Z) :=
  match vs with
  | [] => Ok None
  | v :: vs' =>
      match v, sum_values vs' with
      | _, Err e => Err e
      | VNull, Ok s => Ok s
      | VInt z, Ok None => Ok (Some z)
      | VInt z, Ok (Some s) => Ok (Some (z + s))
      | _, Ok _ => Err (ErrPq datatype_mismatch)
      end
  end.

Fixpoint column_values (col : string) (rows : list Subscription) : result (list value) :=
  match rows with
  | [] => Ok []
  | r :: rows' =>
      match column r col, column_values col rows' with
      | Some v, Ok vs => Ok (v :: vs)
      | None, _ => Err (ErrPq undefined_column)
      | _, Err e => Err e
      end
  end.

Inductive resultset :=
| Rows (l : list Subscription)
| Scalar (v : value).

Definition known_table (t : string) : bool := String.eqb t "subscriptions".

Definition known_column (c : string) : bool :=
  match column (mkSubscription 0%N "" 0 0%N "" None) c with
  | Some _ => true
  | None => false
  end.

(** SELECT *)
Definition query_stmt (st : stmt) (args : list value) (rows : list Subscription)
  : result resultset :=
  match st with
  | Select what t cond order =>
      if negb (known_table t) then Err (ErrPq undefined_table)
      else
        match where_rows args cond rows with
        | Err e => Err e
        | Ok rs =>
            match what with
            | SelStar =>
                match order with
                | None => Ok (Rows rs)
                | Some (Desc col) =>
                    if known_column col then Ok (Rows (sort_rows (desc_by col) rs))
                    else Err (ErrPq undefined_column)
                end
            | SelCoalesceSum col dflt =>
                match order with
                | Some _ => Err (ErrPq syntax_error)
                | None =>
                    match column_values col rs with
                    | Err e => Err e
                    | Ok vs =>
                        match sum_values vs with
                        | Err e => Err e
                        | Ok (Some z) => Ok (Scalar (VInt z))
                        | Ok None => Ok (Scalar (VInt dflt))
                        end
                    end
                end
            end
        end
  | _ => Err (ErrPq syntax_error)
  end.

Fixpoint eval_operands (args : list value) (os : list operand) : result (list value) :=
  match os with
  | [] => Ok []
  | o :: os' =>
      match eval_operand args None o, eval_operands args os' with
      | Ok v, Ok vs => Ok (v :: vs)
      | Err e, _ => Err e
      | _, Err e => Err e
      end
  end.

Fixpoint assoc (c : string) (al : list (string * value)) : option value :=
  match al with
  | [] => None
  | (c', v) :: al' => if String.eqb c c' then Some v else assoc c al'
  end.

(** The row an INSERT builds.  Every column without a default the
    fragment can produce has to be given: [end_date] defaults to NULL,
    and the [id] default (a fresh random UUID) is outside the fragment. *)
Definition given_uuid (c : string) (al : list (string * value)) : result UUID :=
  match assoc c al with
  | Some (VUuid u) => Ok u
  | Some VNull => Err (ErrPq not_null_violation)
  | Some _ => Err (ErrPq datatype_mismatch)
  | None => Err (ErrPq (if String.eqb c "id" then feature_not_supported
                        else not_null_violation))
  end.

Definition given_text (c : string) (al : list (string * value)) : result string :=
  match assoc c al with
  | Some (VText t) => Ok t
  | Some VNull => Err (ErrPq not_null_violation)
  | Some _ => Err (ErrPq datatype_mismatch)
  | None => Err (ErrPq not_null_violation)
  end.

Definition given_int (c : string) (al : list (string * value)) : result Z :=
  match assoc c al with
  | Some (VInt z) => Ok z
  | Some VNull => Err (ErrPq not_null_violation)
  | Some _ => Err (ErrPq datatype_mismatch)
  | None => Err (ErrPq not_null_violation)
  end.

Definition given_text_or_null (c : string) (al : list (string * value))
  : result (option string) :=
  match assoc c al with
  | Some (VText t) => Ok (Some t)
  | Some VNull => Ok None
  | Some _ => Err (ErrPq datatype_mismatch)
  | None => Ok None
  end.

Definition new_row (al : list (string * value)) : result Subscription :=
  match given_uuid "id" al with
  | Err e => Err e
  | Ok id =>
  match given_text "service_name" al with
  | Err e => Err e
  | Ok sn =>
  match given_int "price" al with
  | Err e => Err e
  | Ok p =>
  match given_uuid "user_id" al with
  | Err e => Err e
  | Ok uid =>
  match given_text "start_date" al with
  | Err e => Err e
  | Ok sd =>
  match given_text_or_null "end_date" al with
  | Err e => Err e
  | Ok ed => Ok (mkSubscription id sn p uid sd ed)
  end end end end end end.

Fixpoint apply_sets (args : list value) (old : Subscription)
         (sets : list (string * operand)) (r : Subscription) : result Subscription :=
  match sets with
  | [] => Ok r
  | (c, o) :: sets' =>
      match eval_operand args (Some old) o with
      | Err e => Err e
      | Ok v =>
          match set_column r c v with
          | Err e => Err e
          | Ok r' => apply_sets args old sets' r'
          end
      end
  end.

(** UPDATE: every selected row is rewritten and has to pass the CHECK. *)
Fixpoint update_rows (args : list value) (sets : list (string * operand)) (cond : expr)
         (rows : list Subscription) : result (list Subscription * Z) :=
  match rows with
  | [] => Ok ([], 0)
  | r :: rows' =>
      match selected args cond r with
      | Err e => Err e
      | Ok false =>
          match update_rows args sets cond rows' with
          | Ok (rs, n) => Ok (r :: rs, n)
          | Err e => Err e
          end
      | Ok true =>
          match apply_sets args r sets r with
          | Err e => Err e
          | Ok r' =>
              if negb (check_row r') then Err (ErrPq check_violation)
              else
                match update_rows args sets cond rows' with
                | Ok (rs, n) => Ok (r' :: rs, n + 1)
                | Err e => Err e
                end
          end
      end
  end.

Fixpoint delete_rows (args : list value) (cond : expr) (rows : list Subscription)
  : result (list Subscription * Z) :=
  match rows with
  | [] => Ok ([], 0)
  | r :: rows' =>
      match selected args cond r, delete_rows args cond rows' with
      | Ok true, Ok (rs, n) => Ok (rs, n + 1)
      | Ok false, Ok (rs, n) => Ok (r :: rs, n)
      | Err e, _ => Err e
      | _, Err e => Err e
      end
  end.

(** The range of an INTEGER column. *)
Definition int4 (z : Z) : bool := (-2147483648 <=? z) && (z <=? 2147483647).

(** Valid UTF-8 without a zero byte, as a TEXT value has to be.  [expect]
    lists the ranges the next continuation bytes have to be in. *)
Fixpoint utf8 (s : string) (expect : list (Z * Z)) : bool :=
  match s with
  | EmptyString => match expect with [] => true | _ => false end
  | String c s' =>
      let b := Z.of_nat (nat_of_ascii c) in
      match expect with
      | (lo, hi) :: expect' => (lo <=? b) && (b <=? hi) && utf8 s' expect'
      | [] =>
          if b =? 0 then false
          else if b <=? 127 then utf8 s' []
          else if b <? 194 then false
          else if b <=? 223 then utf8 s' [(128, 191)]
          else if b =? 224 then utf8 s' [(160, 191); (128, 191)]
          else if b =? 237 then utf8 s' [(128, 159); (128, 191)]
          else if b <=? 239 then utf8 s' [(128, 191); (128, 191)]
          else if b =? 240 then utf8 s' [(144, 191); (128, 191); (128, 191)]
          else if b <=? 243 then utf8 s' [(128, 191); (128, 191); (128, 191)]
          else if b =? 244 then utf8 s' [(128, 143); (128, 191); (128, 191)]
          else false
      end
  end.

Definition text_ok (s : string) : bool := utf8 s [].

(** The arguments are read into the types of their columns before the
    statement runs; the first one that does not fit is refused.  The only
    integer column is [price INTEGER]. *)
Definition refused_value (v : value) : option pq_error :=
  match v with
  | VInt z => if int4 z then None else Some numeric_value_out_of_range
  | VText t => if text_ok t then None else Some character_not_in_repertoire
  | VUuid _ => None
  | VNull => None
  end.

Fixpoint refused (args : list value) : option pq_error :=
  match args with
  | [] => None
  | v :: args' =>
      match refused_value v with
      | Some e => Some e
      | None => refused args'
      end
  end.

(** INSERT, UPDATE and DELETE on arguments that fit: the new rows and the
    number of rows affected. *)
Definition apply_stmt (st : stmt) (args : list value) (rows : list Subscription)
  : result (list Subscription * Z) :=
  match st with
  | Insert t cols os =>
      if negb (known_table t) then Err (ErrPq undefined_table)
      else if negb (List.length cols =? List.length os)%nat then Err (ErrPq syntax_error)
      else
        match eval_operands args os with
        | Err e => Err e
        | Ok vs =>
            match new_row (combine cols vs) with
            | Err e => Err e
            | Ok r =>
                if negb (check_row r) then Err (ErrPq check_violation)
                else if has_id (ID r) rows then Err (ErrPq unique_violation)
                else Ok ((rows ++ [r])%list, 1)
            end
        end
  | Update t sets cond =>
      if negb (known_table t) then Err (ErrPq undefined_table)
      else
        match update_rows args sets cond rows with
        | Err e => Err e
        | Ok (rows', n) =>
            if existsb (fun s => String.eqb (fst s) "id") sets && negb (unique_ids rows')
            then Err (ErrPq unique_violation)
            else Ok (rows', n)
        end
  | Delete t cond =>
      if negb (known_table t) then Err (ErrPq undefined_table)
      else delete_rows args cond rows
  | Select _ _ _ _ => Err (ErrPq syntax_error)
  end.

(** INSERT, UPDATE and DELETE.  A statement that fails leaves the rows as
    they were. *)
Definition exec_stmt (st : stmt) (args : list value) (rows : list Subscription)
  : result (list Subscription * Z) :=
  match refused args with
  | Some e => Err (ErrPq e)
  | None => apply_stmt st args rows
  end.

End Sql.

(** ** The [sqlx] handle: statements sent to the store *)

Module Sqlx.
Import Sql.

(** The store: the rows of [subscriptions], and the statements issued to
    it so far (text and bound arguments), latest last.  A statement with
    named parameters is kept with the text its caller wrote: [sqlx] turns
    each [:name] into the positional [$k] of its argument before the text
    leaves, and the arguments kept are those positional ones. *)
Record DB := mkDB {
  table : list Subscription;
  issued : list (string * list value)
}.

Definition send (query : string) (args : list value) (db : DB) : DB :=
  mkDB (table db) (issued db ++ [(query, args)]).

(** The struct field behind a [db:"..."] tag of [model.Subscription]. *)
Definition field_by_tag (sub : Subscription) (tag : string) : option value :=
  if String.eqb tag "id" then Some (VUuid (ID sub))
  else if String.eqb tag "service_name" then Some (VText (ServiceName sub))
  else if String.eqb tag "price" then Some (VInt (Price sub))
  else if String.eqb tag "user_id" then Some (VUuid (UserID sub))
  else if String.eqb tag "start_date" then Some (VText (StartDate sub))
  else if String.eqb tag "end_date" then
    Some (match EndDate sub with Some d => VText d | None => VNull end)
  else None.

(** Named parameters become positional ones, in the order they are
    written, and their values are read from the struct. *)
Definition bind_operand (sub : Subscription) (o : operand) (args : list value)
  : result (operand * list value) :=
  match o with
  | ONamed name =>
      match field_by_tag sub name with
      | Some v => Ok (OParam (S (List.length args)), (args ++ [v])%list)
      | None => Err (ErrMissingName name)
      end
  | _ => Ok (o, args)
  end.

Fixpoint bind_operands (sub : Subscription) (os : list operand) (args : list value)
  : result (list operand * list value) :=
  match os with
  | [] => Ok ([], args)
  | o :: os' =>
      match bind_operand sub o args with
      | Err e => Err e
      | Ok (o', args) =>
          match bind_operands sub os' args with
          | Err e => Err e
          | Ok (os'', args) => Ok (o' :: os'', args)
          end
      end
  end.

Fixpoint bind_sets (sub : Subscription) (sets : list (string * operand)) (args : list value)
  : result (list (string * operand) * list value) :=
  match sets with
  | [] => Ok ([], args)
  | (c, o) :: sets' =>
      match bind_operand sub o args with
      | Err e => Err e
      | Ok (o', args) =>
          match bind_sets sub sets' args with
          | Err e => Err e
          | Ok (sets'', args) => Ok ((c, o') :: sets'', args)
          end
      end
  end.

Fixpoint bind_expr (sub : Subscription) (e : expr) (args : list value)
  : result (expr * list value) :=
  match e with
  | ECmp a op b =>
      match bind_operand sub a args with
      | Err e => Err e
      | Ok (a', args) =>
          match bind_operand sub b args with
          | Err e => Err e
          | Ok (b', args) => Ok (ECmp a' op b', args)
          end
      end
  | EIsNull a =>
      match bind_operand sub a args with
      | Err e => Err e
      | Ok (a', args) => Ok (EIsNull a', args)
      end
  | EAnd a b =>
      match bind_expr sub a args with
      | Err e => Err e
      | Ok (a', args) =>
          match bind_expr sub b args with
          | Err e => Err e
          | Ok (b', args) => Ok (EAnd a' b', args)
          end
      end
  | EOr a b =>
      match bind_expr sub a args with
      | Err e => Err e
      | Ok (a', args) =>
          match bind_expr sub b args with
          | Err e => Err e
          | Ok (b', args) => Ok (EOr a' b', args)
          end
      end
  end.

Definition bind_stmt (sub : Subscription) (st : stmt) : result (stmt * list value) :=
  match st with
  | Select what t cond order =>
      match bind_expr sub cond [] with
      | Err e => Err e
      | Ok (cond', args) => Ok (Select what t cond' order, args)
      end
  | Insert t cols os =>
      match bind_operands sub os [] with
      | Err e => Err e
      | Ok (os', args) => Ok (Insert t cols os', args)
      end
  | Update t sets cond =>
      match bind_sets sub sets [] with
      | Err e => Err e
      | Ok (sets', args) =>
          match bind_expr sub cond args with
          | Err e => Err e
          | Ok (cond', args) => Ok (Update t sets' cond', args)
          end
      end
  | Delete t cond =>
      match bind_expr sub cond [] with
      | Err e => Err e
      | Ok (cond', args) => Ok (Delete t cond', args)
      end
  end.

(** [db.Exec(query, args...)]: the store after the statement and
    [result.RowsAffected()]. *)
Definition Exec (query : string) (args : list value) (db : DB) : DB * result Z :=
  let db := send query args db in
  match parse_stmt (tokens query) with
  | None => (db, Err (ErrPq syntax_error))
  | Some st =>
      match exec_stmt st args (table db) with
      | Err e => (db, Err e)
      | Ok (rows, n) => (mkDB rows (issued db), Ok n)
      end
  end.

(** [db.NamedExec(query, sub)] *)
Definition NamedExec (query : string) (sub : Subscription) (db : DB) : DB * result Z :=
  match parse_stmt (tokens query) with
  | None => (send query [] db, Err (ErrPq syntax_error))
  | Some st =>
      match bind_stmt sub st with
      | Err e => (db, Err e)
      | Ok (st, args) =>
          let db := send query args db in
          match exec_stmt st args (table db) with
          | Err e => (db, Err e)
          | Ok (rows, n) => (mkDB rows (issued db), Ok n)
          end
      end
  end.

Definition Query (query : string) (args : list value) (db : DB) : DB * result resultset :=
  let db := send query args db in
  match parse_stmt (tokens query) with
  | None => (db, Err (ErrPq syntax_error))
  | Some st => (db, query_stmt st args (table db))
  end.

(** [db.Get(&sub, query, args...)]: the first row, [sql.ErrNoRows] when
    there is none. *)
Definition Get_struct (query : string) (args : list value) (db : DB)
  : DB * result Subscription :=
  match Query query args db with
  | (db, Err e) => (db, Err e)
  | (db, Ok (Rows (r :: _))) => (db, Ok r)
  | (db, Ok (Rows [])) => (db, Err ErrNoRows)
  | (db, Ok (Scalar _)) => (db, Err ErrScan)
  end.

(** [db.Get(&total, query, args...)] with [total] an [int]. *)
Definition Get_int (query : string) (args : list value) (db : DB) : DB * result Z :=
  match Query query args db with
  | (db, Err e) => (db, Err e)
  | (db, Ok (Scalar (VInt z))) => (db, Ok z)
  | (db, Ok (Scalar _)) => (db, Err ErrScan)
  | (db, Ok (Rows _)) => (db, Err ErrScan)
  end.

(** [db.Select(&subs, query, args...)]: all the rows. *)
Definition Select_structs (query : string) (args : list value) (db : DB)
  : DB * result (list Subscription) :=
  match Query query args db with
  | (db, Err e) => (db, Err e)
  | (db, Ok (Rows rs)) => (db, Ok rs)
  | (db, Ok (Scalar _)) => (db, Err ErrScan)
  end.

End Sqlx.

(** ** Package [repository]: [SubscriptionRepository]

    Each method takes the store and returns it with its result, in place
    of the receiver's [db] handle.  The [log.Printf] calls on the error
    paths write to the process log only and are left out. *)

Module Repository.
Import Sql Sqlx.

(** [fmt.Sprintf("%d", n)] *)
Definition itoa (n : Z) : string := NilZero.string_of_int (Z.to_int n).

(** The statement texts, as the methods below write them. *)
Definition Create_query : string := "
		INSERT INTO subscriptions (id, service_name, price, user_id, start_date, end_date)
		VALUES (:id, :service_name, :price, :user_id, :start_date, :end_date)
	".

Definition GetByID_query : string := "SELECT * FROM subscriptions WHERE id = $1".

Definition List_select : string := "SELECT * FROM subscriptions WHERE 1=1".

Definition GetTotalCost_select : string := "
		SELECT COALESCE(SUM(price), 0)
		FROM subscriptions
		WHERE (end_date IS NULL OR end_date >= $1)
		  AND start_date <= $2
	".

Definition Update_query : string := "
		UPDATE subscriptions
		SET service_name = :service_name,
		    price = :price,
		    user_id = :user_id,
		    start_date = :start_date,
		    end_date = :end_date
		WHERE id = :id
	".

Definition Delete_query : string := "DELETE FROM subscriptions WHERE id = $1".

Definition Create (sub : Subscription) (db : DB) : DB * option error :=
  let query := Create_query in
  match NamedExec query sub db with
  | (db, Err err) => (db, Some err)
  | (db, Ok _) => (db, None)
  end.

Definition GetByID (id : UUID) (db : DB) : DB * result Subscription :=
  let query := GetByID_query in
  match Get_struct query [VUuid id] db with
  | (db, Err err) => (db, Err err)
  | (db, Ok sub) => (db, Ok sub)
  end.

(** The statement text and the arguments that [List] assembles. *)
Definition List_query (user_id : option UUID) (service_name : option string)
  : string * list value :=
  let query := List_select in
  let args := @nil value in
  let argIndex := 1 in
  let '(query, args, argIndex) :=
    match user_id with
    | Some u => (query ++ " AND user_id = $" ++ itoa argIndex,
                 (args ++ [VUuid u])%list, argIndex + 1)
    | None => (query, args, argIndex)
    end in
  let '(query, args) :=
    match service_name with
    | Some n => (query ++ " AND service_name = $" ++ itoa argIndex,
                 (args ++ [VText n])%list)
    | None => (query, args)
    end in
  let query := query ++ " ORDER BY start_date DESC" in
  (query, args).

Definition List (user_id : option UUID) (service_name : option string) (db : DB)
  : DB * result (list Subscription) :=
  let '(query, args) := List_query user_id service_name in
  match Select_structs query args db with
  | (db, Err err) => (db, Err err)
  | (db, Ok subs) => (db, Ok subs)
  end.

(** The statement text and the arguments that [GetTotalCost] assembles. *)
Definition GetTotalCost_query (startMonth endMonth : string)
           (userID : option UUID) (serviceName : option string)
  : string * list value :=
  let query := GetTotalCost_select in
  let args := [VText startMonth; VText endMonth] in
  let argIndex := 3 in
  let '(query, args, argIndex) :=
    match userID with
    | Some u => (query ++ " AND user_id = $" ++ itoa argIndex,
                 (args ++ [VUuid u])%list, argIndex + 1)
    | None => (query, args, argIndex)
    end in
  let '(query, args) :=
    match serviceName with
    | Some n => (query ++ " AND service_name = $" ++ itoa argIndex,
                 (args ++ [VText n])%list)
    | None => (query, args)
    end in
  (query, args).

Definition GetTotalCost (startMonth endMonth : string)
           (userID : option UUID) (serviceName : option string) (db : DB)
  : DB * result Z :=
  if negb (isValidMonthYear startMonth) || negb (isValidMonthYear endMonth) then
    (db, Err ErrInvalidMonth)
  else
    let '(query, args) := GetTotalCost_query startMonth endMonth userID serviceName in
    match Get_int query args db with
    | (db, Err err) => (db, Err err)
    | (db, Ok total) => (db, Ok total)
    end.

(** [result.RowsAffected()] does not fail for this driver; its error
    branch is not drawn. *)
Definition Update (sub : Subscription) (db : DB) : DB * option error :=
  let query := Update_query in
  match NamedExec query sub db with
  | (db, Err err) => (db, Some err)
  | (db, Ok rowsAffected) =>
      if rowsAffected =? 0 then (db, Some (ErrNotFound (ID sub)))
      else (db, None)
  end.

Definition Delete (id : UUID) (db : DB) : DB * option error :=
  let query := Delete_query in
  match Exec query [VUuid id] db with
  | (db, Err err) => (db, Some err)
  | (db, Ok rowsAffected) =>
      if rowsAffected =? 0 then (db, Some (ErrNotFound id))
      else (db, None)
  end.

End Repository.

(** ** Package [handler]: creating a subscription *)

Module Handler.
Import Sqlx.

(** The decoded request body of [CreateSubscription]. *)
Record createInput := mkCreateInput {
  in_ServiceName : string;
  in_Price : Z;
  in_UserID : string;
  in_StartDate : string;
  in_EndDate : option string
}.

Inductive response :=
| Error (msg : string) (code : Z)           (* http.Error(w, msg, code) *)
| JSON (status : Z) (data : Subscription).  (* SendJSON(w, status, data) *)

Definition StatusCreated := 201.
Definition StatusBadRequest := 400.
Definition StatusInternalServerError := 500.

Section CreateSubscription.

(** [uuid.Parse] and the identifier [uuid.New()] draws belong to the
    uuid package; the handler is read for any such parser. *)
Variable uuid_Parse : string -> option UUID.

(** [body] is what [json.NewDecoder(r.Body).Decode(&input)] yields,
    [None] when it fails; [newID] is the result of [uuid.New()]. *)
Definition CreateSubscription (body : option createInput) (newID : UUID) (db : DB)
  : DB * response :=
  match body with
  | None => (db, Error "Некорректное тело запроса" StatusBadRequest)
  | Some input =>
      if String.eqb (in_ServiceName input) "" then
        (db, Error "service_name не может быть пустым" StatusBadRequest)
      else if in_Price input <=? 0 then
        (db, Error "price должен быть положительным целым числом" StatusBadRequest)
      else
        match uuid_Parse (in_UserID input) with
        | None => (db, Error "user_id должен быть валидным UUID" StatusBadRequest)
        | Some userID =>
            if negb (isValidMonthYear (in_StartDate input)) then
              (db, Error "start_date должен быть в формате MM-YYYY (например, 07-2025)"
                         StatusBadRequest)
            else
              let sub := mkSubscription newID (in_ServiceName input) (in_Price input)
                                        userID (in_StartDate input) (in_EndDate input) in
              match Repository.Create sub db with
              | (db, Some _) =>
                  (db, Error "Не удалось сохранить подписку" StatusInternalServerError)
              | (db, None) =>
                  match Repository.GetByID (ID sub) db with
                  | (db, Err _) =>
                      (db, Error "Не удалось получить сохранённую подписку"
                                 StatusInternalServerError)
                  | (db, Ok saved) => (db, JSON StatusCreated saved)
                  end
              end
        end
  end.

End CreateSubscription.

End Handler.

(** ** Package [handler]: the other endpoints *)

Module Endpoints.
Import Sqlx.

(** What [SendJSON] is given to encode. *)
Inductive payload :=
| OneSubscription (sub : Subscription)
| Subscriptions (subs : list Subscription)
| Total (total : Z).                        (* map[string]int{"total": total} *)

Inductive reply :=
| HttpError (msg : string) (code : Z)       (* http.Error(w, msg, code) *)
| SendJSON (status : Z) (data : payload)    (* SendJSON(w, status, data) *)
| WriteHeader (status : Z).                 (* w.WriteHeader(status) *)

Definition StatusOK := 200.
Definition StatusNoContent := 204.
Definition StatusBadRequest := 400.
Definition StatusNotFound := 404.
Definition StatusInternalServerError := 500.

(** [err.Error() == fmt.Sprintf("подписка с ID %s не найдена", id)]: the
    text of an error is this one exactly for the not-found error of the
    same id. *)
Definition is_not_found (err : error) (id : UUID) : bool :=
  match err with
  | ErrNotFound id' => N.eqb id' id
  | _ => false
  end.

(** The status a reply carries. *)
Definition status_of (r : reply) : Z :=
  match r with
  | HttpError _ code => code
  | SendJSON status _ => status
  | WriteHeader status => status
  end.

Section Handlers.

(** [uuid.Parse], of the uuid package. *)
Variable uuid_Parse : string -> option UUID.

(** [idStr] is [mux.Vars(r)["id"]]. *)
Definition GetSubscriptionByID (idStr : string) (db : DB) : DB * reply :=
  match uuid_Parse idStr with
  | None => (db, HttpError "Некорректный ID подписки" StatusBadRequest)
  | Some id =>
      match Repository.GetByID id db with
      | (db, Err _) => (db, HttpError "Подписка не найдена" StatusNotFound)
      | (db, Ok sub) => (db, SendJSON StatusOK (OneSubscription sub))
      end
  end.

(** [userIDStr] and [serviceName] are the query parameters [user_id] and
    [service_name], [""] when the request has none. *)
Definition ListSubscriptions (userIDStr serviceName : string) (db : DB) : DB * reply :=
  let continue (userID : option UUID) :=
    let serviceNamePtr := if negb (String.eqb serviceName "") then Some serviceName else None in
    match Repository.List userID serviceNamePtr db with
    | (db, Err _) =>
        (db, HttpError "Ошибка при получении списка подписок" StatusInternalServerError)
    | (db, Ok subs) => (db, SendJSON StatusOK (Subscriptions subs))
    end in
  if negb (String.eqb userIDStr "") then
    match uuid_Parse userIDStr with
    | None => (db, HttpError "user_id должен быть валидным UUID" StatusBadRequest)
    | Some id => continue (Some id)
    end
  else continue None.

(** [startMonth], [endMonth], [userIDStr] and [serviceName] are the query
    parameters [start_month], [end_month], [user_id] and [service_name]. *)
Definition GetTotalCost (startMonth endMonth userIDStr serviceName : string) (db : DB)
  : DB * reply :=
  if String.eqb startMonth "" || String.eqb endMonth "" then
    (db, HttpError "Параметры start_month и end_month обязательны" StatusBadRequest)
  else
    let continue (userID : option UUID) :=
      let serviceNamePtr := if negb (String.eqb serviceName "") then Some serviceName else None in
      match Repository.GetTotalCost startMonth endMonth userID serviceNamePtr db with
      | (db, Err _) => (db, HttpError "Ошибка при расчёте суммы" StatusInternalServerError)
      | (db, Ok total) => (db, SendJSON StatusOK (Total total))
      end in
    if negb (String.eqb userIDStr "") then
      match uuid_Parse userIDStr with
      | None => (db, HttpError "user_id должен быть валидным UUID" StatusBadRequest)
      | Some id => continue (Some id)
      end
    else continue None.

(** [idStr] is [mux.Vars(r)["id"]]; [body] is what decoding the request
    body yields, [None] when it fails. *)
Definition UpdateSubscription (idStr : string) (body : option Handler.createInput) (db : DB)
  : DB * reply :=
  match uuid_Parse idStr with
  | None => (db, HttpError "Некорректный ID подписки" StatusBadRequest)
  | Some id =>
      match body with
      | None => (db, HttpError "Некорректное тело запроса" StatusBadRequest)
      | Some input =>
          if String.eqb (Handler.in_ServiceName input) "" then
            (db, HttpError "service_name не может быть пустым" StatusBadRequest)
          else if Handler.in_Price input <=? 0 then
            (db, HttpError "price должен быть положительным целым числом" StatusBadRequest)
          else
            match uuid_Parse (Handler.in_UserID input) with
            | None => (db, HttpError "user_id должен быть валидным UUID" StatusBadRequest)
            | Some userID =>
                if negb (isValidMonthYear (Handler.in_StartDate input)) then
                  (db, HttpError "start_date должен быть в формате MM-YYYY (например, 07-2025)"
                                 StatusBadRequest)
                else
                  let sub := mkSubscription id (Handler.in_ServiceName input)
                                            (Handler.in_Price input) userID
                                            (Handler.in_StartDate input)
                                            (Handler.in_EndDate input) in
                  match Repository.Update sub db with
                  | (db, Some err) =>
                      if is_not_found err id then
                        (db, HttpError "Подписка не найдена" StatusNotFound)
                      else
                        (db, HttpError "Не удалось обновить подписку" StatusInternalServerError)
                  | (db, None) =>
                      match Repository.GetByID id db with
                      | (db, Err _) =>
                          (db, HttpError "Не удалось получить обновлённую подписку"
                                         StatusInternalServerError)
                      | (db, Ok updated) => (db, SendJSON StatusOK (OneSubscription updated))
                      end
                  end
            end
      end
  end.

Definition DeleteSubscription (idStr : string) (db : DB) : DB * reply :=
  match uuid_Parse idStr with
  | None => (db, HttpError "Некорректный ID подписки" StatusBadRequest)
  | Some id =>
      match Repository.Delete id db with
      | (db, Some err) =>
          if is_not_found err id then
            (db, HttpError "Подписка не найдена" StatusNotFound)
          else
            (db, HttpError "Ошибка при удалении подписки" StatusInternalServerError)
      | (db, None) => (db, WriteHeader StatusNoContent)
      end
  end.

End Handlers.

End Endpoints.

(** ** Sequences of repository calls *)

Inductive call :=
| CallCreate (sub : Subscription)
| CallGetByID (id : UUID)
| CallList (user_id : option UUID) (service_name : option string)
| CallGetTotalCost (startMonth endMonth : string)
                   (userID : option UUID) (serviceName : option string)
| CallUpdate (sub : Subscription)
| CallDelete (id : UUID).

(** The store after one call, whatever the call returned. *)
Definition after_call (c : call) (db : Sqlx.DB) : Sqlx.DB :=
  match c with
  | CallCreate sub => fst (Repository.Create sub db)
  | CallGetByID id => fst (Repository.GetByID id db)
  | CallList u n => fst (Repository.List u n db)
  | CallGetTotalCost s e u n => fst (Repository.GetTotalCost s e u n db)
  | CallUpdate sub => fst (Repository.Update sub db)
  | CallDelete id => fst (Repository.Delete id db)
  end.

(** The store after the calls of a list, first to last. *)
Definition after_calls (cs : list call) (db : Sqlx.DB) : Sqlx.DB :=
  fold_left (fun db c => after_call c db) cs db.


(** The record the creation and update handlers build from a request
    body, when the body passes their checks: it decodes, the service name is
    not empty, the price is positive, the user id parses and the start date
    is a valid month. *)
Definition accepted (uuid_Parse : string -> option UUID)
           (body : option Handler.createInput) (id : UUID) : option Subscription :=
  match body with
  | None => None
  | Some input =>
      if negb (String.eqb (Handler.in_ServiceName input) "")
         && (0 <? Handler.in_Price input)
         && isValidMonthYear (Handler.in_StartDate input)
      then
        match uuid_Parse (Handler.in_UserID input) with
        | Some userID =>
            Some (mkSubscription id (Handler.in_ServiceName input) (Handler.in_Price input)
                                 userID (Handler.in_StartDate input)
                                 (Handler.in_EndDate input))
        | None => None
        end
      else None
  end.

(** A query parameter that is left out, or empty, is no filter. *)
Definition given (param : string) : option string :=
  if String.eqb param "" then None else Some param.

(** The user filter a handler reads from the [user_id] parameter: none
    when the parameter is empty, the parsed id when it parses, and no
    filter at all ([None]) when it is not empty and does not parse. *)
Definition user_filter (uuid_Parse : string -> option UUID) (param : string)
  : option (option UUID) :=
  if String.eqb param "" then Some None
  else match uuid_Parse param with
       | Some id => Some (Some id)
       | None => None
       end.

(** ** Sample requests *)

Module Request.
Definition user : string := "60601fee-2bf1-4721-ae6f-7636e79a0cba".
Definition okko : Handler.createInput := Handler.mkCreateInput "Okko" 100 user "07-2025" None.
Definition okko_row (id : UUID) : Subscription :=
  mkSubscription id "Okko" 100 7%N "07-2025" None.
(** A parser for the sample ids: the user above, and one-digit ids. *)
Definition parse (s : string) : option UUID :=
  if String.eqb s user then Some 7%N
  else if String.eqb s "1" then Some 1%N
  else if String.eqb s "2" then Some 2%N
  else if String.eqb s "3" then Some 3%N
  else None.
End Request.

(** ** The vocabulary of the specification *)

Import GoString GoTime.
Import Sql Sqlx Repository.

(** A month token as the specification words it: a two-digit month from
    01 to 12, a hyphen, a four-digit year, and nothing else. *)
Definition is_digit (c : ascii) : bool := (48 <=? byte c) && (byte c <=? 57).

Definition digit_value (c : ascii) : Z := byte c - 48.

Definition well_formed_month (s : string) : bool :=
  match s with
  | String m1 (String m2 (String h (String y1 (String y2 (String y3 (String y4 EmptyString)))))) =>
      is_digit m1 && is_digit m2
      && (1 <=? 10 * digit_value m1 + digit_value m2)
      && (10 * digit_value m1 + digit_value m2 <=? 12)
      && Ascii.eqb h "-"
      && is_digit y1 && is_digit y2 && is_digit y3 && is_digit y4
  | _ => false
  end.

(** The overlap of a subscription with the range [startMonth, endMonth]:
    (end_date absent or end_date >= startMonth) and start_date <= endMonth,
    the comparisons being those of the stored strings. *)
Definition overlaps (startMonth endMonth : string) (s : Subscription) : bool :=
  match EndDate s with
  | None => true
  | Some end_date => String.leb startMonth end_date
  end && String.leb (StartDate s) endMonth.

(** The optional filters: each one that is present has to match. *)
Definition passes (userID : option UUID) (serviceName : option string) (s : Subscription) : bool :=
  match userID with None => true | Some u => N.eqb (UserID s) u end
  && match serviceName with None => true | Some n => String.eqb (ServiceName s) n end.

Definition total_price (rows : list Subscription) : Z :=
  fold_right (fun s acc => Price s + acc) 0 rows.

(** Every stored subscription has a positive price. *)
Definition prices_positive (db : DB) : Prop :=
  Forall (fun r => 0 < Price r) (table db).

(** What the store refuses of a record before the statement runs: the
    first of service_name, price, start_date and end_date that does not fit
    its column (the identifiers always fit). *)
Definition refusal (sub : Subscription) : option pq_error :=
  if negb (text_ok (ServiceName sub)) then Some character_not_in_repertoire
  else if negb (int4 (Price sub)) then Some numeric_value_out_of_range
  else if negb (text_ok (StartDate sub)) then Some character_not_in_repertoire
  else match EndDate sub with
       | Some d => if text_ok d then None else Some character_not_in_repertoire
       | None => None
       end.

(** A record whose values fit the columns: a price within INTEGER and
    texts that are valid in the encoding of the database. *)
Definition storable (sub : Subscription) : bool :=
  text_ok (ServiceName sub) && int4 (Price sub) && text_ok (StartDate sub)
  && match EndDate sub with Some d => text_ok d | None => true end.

(** The errors by which the store refuses a value: the price check, the
    range of the column, and the encoding of a text. *)
Definition constraint_error (e : pq_error) : bool :=
  match e with
  | check_violation => true
  | numeric_value_out_of_range => true
  | character_not_in_repertoire => true
  | _ => false
  end.

Definition present {A : Type} (o : option A) : bool :=
  match o with Some _ => true | None => false end.


(** The arguments of the filters that are present. *)
Definition filter_args (userID : option UUID) (serviceName : option string) : list value :=
  (match userID with Some u => [VUuid u] | None => [] end
   ++ match serviceName with Some n => [VText n] | None => [] end)%list.

(** [e AND x1 AND ... AND xn], as the parser nests it. *)
Fixpoint conj (e : expr) (es : list expr) : expr :=
  match es with
  | [] => e
  | x :: es' => EAnd e (conj x es')
  end.

(** The predicates of the filters that are present, the first of them on
    parameter [first]. *)
Definition filter_preds (first : nat) (has_user has_service : bool) : list expr :=
  ((if has_user then [ECmp (OCol "user_id") CmpEq (OParam first)] else [])
   ++ (if has_service
       then [ECmp (OCol "service_name") CmpEq
                  (OParam (if has_user then S first else first))]
       else []))%list.

Definition end_date_cond : expr :=
  EOr (EIsNull (OCol "end_date")) (ECmp (OCol "end_date") CmpGe (OParam 1)).

Definition start_date_cond : expr :=
  ECmp (OCol "start_date") CmpLe (OParam 2).

(** The statements of [GetTotalCost] and of [List], as the store reads
    them. *)
Definition total_stmt (has_user has_service : bool) : stmt :=
  Select (SelCoalesceSum "price" 0) "subscriptions"
         (conj end_date_cond (start_date_cond :: filter_preds 3 has_user has_service))
         None.

Definition list_stmt (has_user has_service : bool) : stmt :=
  Select SelStar "subscriptions"
         (conj (ECmp (OInt 1) CmpEq (OInt 1)) (filter_preds 1 has_user has_service))
         (Some (Desc "start_date")).

(** ** Auxiliary definitions *)

(** The year element of [Parse_01_2006] and the end of the value. *)
Definition year_and_end (month : Z) (value : string) : option (Z * Z) :=
  if (len value <? 4) || negb (isDigit value 0) then None
  else
    let p := upto 4 value in
    let value := from 4 value in
    match atoi p with
    | None => None
    | Some year =>
        match skip value "" with
        | None => None
        | Some value =>
            if negb (len value =? 0) then None
            else
              let day := 1 in
              if (day <? 1) || (daysIn month year <? day) then None
              else Some (month, year)
        end
    end.

Definition four_digits (s : string) : bool :=
  match s with
  | String y1 (String y2 (String y3 (String y4 EmptyString))) =>
      is_digit y1 && is_digit y2 && is_digit y3 && is_digit y4
  | _ => false
  end.

(** The arguments [sqlx] binds for the named parameters of a struct. *)
Definition end_date_value (sub : Subscription) : value :=
  match EndDate sub with Some d => VText d | None => VNull end.

Definition Create_args (sub : Subscription) : list value :=
  [VUuid (ID sub); VText (ServiceName sub); VInt (Price sub); VUuid (UserID sub);
   VText (StartDate sub); end_date_value sub].

Definition Update_args (sub : Subscription) : list value :=
  [VText (ServiceName sub); VInt (Price sub); VUuid (UserID sub);
   VText (StartDate sub); end_date_value sub; VUuid (ID sub)].

Definition Update_sets : list (string * operand) :=
  [("service_name", OParam 1); ("price", OParam 2); ("user_id", OParam 3);
   ("start_date", OParam 4); ("end_date", OParam 5)].

Definition same_id (id : UUID) (r : Subscription) : bool := id_eqb (ID r) id.

(** The row an UPDATE writes over [r]: every column but [id] from [sub]. *)
Definition overwrite (sub r : Subscription) : Subscription :=
  mkSubscription (ID r) (ServiceName sub) (Price sub) (UserID sub) (StartDate sub) (EndDate sub).

(** ** Sample data *)

Module Sample.
Definition empty : DB := mkDB [] [].
Definition A : Subscription := mkSubscription 1%N "Yandex Plus" 400 7%N "07-2025" None.
Definition B : Subscription := mkSubscription 2%N "Netflix" 100 7%N "01-2025" (Some "01-2025").
Definition C : Subscription := mkSubscription 3%N "Spotify" 250 8%N "01-2025" None.
Definition db : DB := mkDB [A; B] [].
Definition bad_month : Subscription := mkSubscription 4%N "Okko" 100 7%N "13-2025" None.
Definition free : Subscription := mkSubscription 5%N "Kion" 0 7%N "01-2025" None.
Definition B' : Subscription := mkSubscription 2%N "Netflix 4K" 150 8%N "02-2025" None.
Definition parse (s : string) : option UUID :=
  if String.eqb s "60601fee-2bf1-4721-ae6f-7636e79a0cba" then Some 7%N else None.
Definition input : Handler.createInput :=
  Handler.mkCreateInput "Okko" 100 "60601fee-2bf1-4721-ae6f-7636e79a0cba" "2025-07" None.
End Sample.

(** Records the columns do not take: a price above the INTEGER range, and
    a service name with a zero byte. *)
Module Unstorable.
Definition huge : Subscription :=
  mkSubscription 3%N "Spotify" 2147483648 8%N "01-2025" None.
Definition nul : Subscription :=
  mkSubscription 3%N (String "000" "Spotify") 250 8%N "01-2025" None.
Definition below : Subscription :=
  mkSubscription 3%N "Spotify" (-3000000000) 8%N "01-2025" None.
(** A request body that passes the checks of the handlers, with a price
    above the INTEGER range, and the record built from it. *)
Definition request : Handler.createInput :=
  Handler.mkCreateInput "Okko" 2147483648 Request.user "07-2025" None.
Definition request_row (id : UUID) : Subscription :=
  mkSubscription id "Okko" 2147483648 7%N "07-2025" None.
End Unstorable.

(** ** Properties

    *** The month check *)

Example isValidMonthYear_07_2025 : isValidMonthYear "07-2025" = true.
Proof. reflexivity. Qed.

Example isValidMonthYear_rejects :
  map isValidMonthYear ["2025-07"; "13-2025"; "1-2025"; "00-2025"; "01-25";
                        " 01-2025"; "01-2025 "; "01-20255"; ""; "01/2025"]
  = repeat false 10.
Proof. reflexivity. Qed.

Lemma byte_range c : 0 <= byte c < 256.
Proof.
  unfold byte. pose proof (nat_ascii_bounded c). lia.
Qed.

Lemma isDigit_0 c s : isDigit (String c s) 0 = is_digit c.
Proof. reflexivity. Qed.

Lemma isDigit_1 a c s : isDigit (String a (String c s)) 1 = is_digit c.
Proof. reflexivity. Qed.

Lemma is_digit_value c : is_digit c = true -> (byte c - 48) mod 256 = digit_value c /\ 0 <= digit_value c <= 9.
Proof.
  unfold is_digit, digit_value. intros H.
  apply andb_true_iff in H. destruct H as [H1 H2].
  apply Z.leb_le in H1. apply Z.leb_le in H2.
  rewrite Z.mod_small by lia. lia.
Qed.

Lemma getnum_fixed_2 a b s :
  getnum (String a (String b s)) true =
  if is_digit a && is_digit b then Some (digit_value a * 10 + digit_value b, s) else None.
Proof.
  unfold getnum. rewrite isDigit_0, isDigit_1.
  destruct (is_digit a) eqn:Ha; simpl; [|reflexivity].
  destruct (is_digit b) eqn:Hb; simpl; [|reflexivity].
  unfold byte_at; simpl. fold (byte a) (byte b).
  destruct (is_digit_value a Ha) as [-> _]. destruct (is_digit_value b Hb) as [-> _].
  reflexivity.
Qed.

Lemma getnum_fixed_short a : getnum (String a "") true = None.
Proof. unfold getnum. rewrite isDigit_0. destruct (is_digit a); reflexivity. Qed.

Lemma leadingInt_digit x c s :
  is_digit c = true -> 0 <= x <= 100000 ->
  leadingInt_loop x (String c s) = leadingInt_loop (x * 10 + digit_value c) s.
Proof.
  intros Hc Hx. destruct (is_digit_value c Hc) as [_ Hv].
  unfold is_digit in Hc. apply andb_true_iff in Hc. destruct Hc as [H1 H2].
  apply Z.leb_le in H1. apply Z.leb_le in H2.
  cbn [leadingInt_loop].
  replace (byte c <? 48) with false by (symmetry; apply Z.ltb_ge; lia).
  replace (57 <? byte c) with false by (symmetry; apply Z.ltb_ge; lia).
  cbn [orb].
  change (2 ^ 63 / 10) with 922337203685477580.
  change (2 ^ 64) with 18446744073709551616.
  change (2 ^ 63) with 9223372036854775808.
  replace (922337203685477580 <? x) with false by (symmetry; apply Z.ltb_ge; lia).
  unfold digit_value in *.
  rewrite Z.mod_small by lia.
  replace (9223372036854775808 <? x * 10 + byte c - 48) with false by (symmetry; apply Z.ltb_ge; lia).
  f_equal. lia.
Qed.

Lemma leadingInt_nondigit x c s :
  is_digit c = false -> leadingInt_loop x (String c s) = Some (x, String c s).
Proof.
  intros Hc. unfold is_digit in Hc. cbn [leadingInt_loop].
  destruct (byte c <? 48) eqn:E1; [reflexivity|].
  destruct (57 <? byte c) eqn:E2; [reflexivity|].
  apply Z.ltb_ge in E1. apply Z.ltb_ge in E2.
  apply andb_false_iff in Hc. destruct Hc as [H|H]; apply Z.leb_gt in H; lia.
Qed.

Lemma is_digit_not_sign c : is_digit c = true -> Ascii.eqb c "-" = false /\ Ascii.eqb c "+" = false.
Proof.
  intros H. destruct (is_digit_value c H) as [_ Hv]. unfold digit_value in Hv.
  split; apply Ascii.eqb_neq; intros ->;
    [change (byte "-") with 45 in Hv | change (byte "+") with 43 in Hv]; lia.
Qed.

Lemma atoi_4 y1 y2 y3 y4 :
  is_digit y1 = true ->
  atoi (String y1 (String y2 (String y3 (String y4 ""))))
  = if is_digit y2 && is_digit y3 && is_digit y4
    then Some (((digit_value y1 * 10 + digit_value y2) * 10 + digit_value y3) * 10 + digit_value y4)
    else None.
Proof.
  intros H1. unfold atoi.
  destruct (is_digit_not_sign y1 H1) as [-> ->].
  unfold leadingInt.
  pose proof (is_digit_value y1 H1) as [_ B1].
  rewrite leadingInt_digit by (auto; lia).
  destruct (is_digit y2) eqn:H2.
  2:{ rewrite leadingInt_nondigit by auto. reflexivity. }
  pose proof (is_digit_value y2 H2) as [_ B2].
  rewrite leadingInt_digit by (auto; lia).
  destruct (is_digit y3) eqn:H3.
  2:{ rewrite leadingInt_nondigit by auto. reflexivity. }
  pose proof (is_digit_value y3 H3) as [_ B3].
  rewrite leadingInt_digit by (auto; lia).
  destruct (is_digit y4) eqn:H4.
  2:{ rewrite leadingInt_nondigit by auto. reflexivity. }
  rewrite leadingInt_digit by (auto; lia).
  reflexivity.
Qed.

Lemma daysIn_pos m y : 1 <= daysIn m y.
Proof.
  unfold daysIn. repeat match goal with |- context [if ?b then _ else _] => destruct b end; lia.
Qed.

Lemma skip_empty s : skip s "" = Some s.
Proof. reflexivity. Qed.

Lemma skip_hyphen s :
  skip s "-" = match s with
               | String h s' => if Ascii.eqb h "-" then Some s' else None
               | EmptyString => None
               end.
Proof. destruct s as [|h s']; [reflexivity|]. unfold skip. cbn. destruct (Ascii.eqb h "-"); reflexivity. Qed.

Lemma len_nil : len "" = 0.
Proof. reflexivity. Qed.

Lemma len_cons c s : len (String c s) = 1 + len s.
Proof. unfold len. cbn [String.length]. lia. Qed.

Lemma len_nonneg s : 0 <= len s.
Proof. unfold len. lia. Qed.

Lemma year_and_end_some month s :
  present (year_and_end month s) = four_digits s.
Proof.
  unfold year_and_end.
  destruct s as [|y1 [|y2 [|y3 [|y4 rest]]]]; try reflexivity.
  replace (len (String y1 (String y2 (String y3 (String y4 rest)))) <? 4) with false.
  2:{ symmetry. apply Z.ltb_ge. rewrite !len_cons. pose proof (len_nonneg rest). lia. }
  rewrite isDigit_0. cbn [orb upto from].
  destruct (is_digit y1) eqn:D1; cbn [negb].
  2:{ unfold four_digits. rewrite D1. destruct rest; reflexivity. }
  rewrite atoi_4 by assumption.
  unfold four_digits. rewrite D1. cbn [andb].
  destruct (is_digit y2 && is_digit y3 && is_digit y4) eqn:D.
  2:{ destruct rest; reflexivity. }
  rewrite skip_empty.
  destruct rest as [|c rest].
  - rewrite len_nil. cbn [Z.eqb negb].
    change (1 <? 1) with false. cbn [orb].
    match goal with |- context [daysIn ?m ?y <? 1] =>
      replace (daysIn m y <? 1) with false
        by (symmetry; apply Z.ltb_ge; pose proof (daysIn_pos m y); lia) end.
    reflexivity.
  - replace (len (String c rest) =? 0) with false.
    2:{ symmetry. apply Z.eqb_neq. rewrite len_cons. pose proof (len_nonneg rest). lia. }
    reflexivity.
Qed.

Lemma Parse_unfold s :
  Parse_01_2006 s =
  match getnum s true with
  | None => None
  | Some (month, value) =>
      if (month <=? 0) || (12 <? month) then None
      else match skip value "-" with
           | None => None
           | Some value => year_and_end month value
           end
  end.
Proof. reflexivity. Qed.

Lemma well_formed_unfold m1 m2 s :
  well_formed_month (String m1 (String m2 s)) =
  is_digit m1 && is_digit m2
  && (1 <=? 10 * digit_value m1 + digit_value m2)
  && (10 * digit_value m1 + digit_value m2 <=? 12)
  && match s with
     | String h s' => Ascii.eqb h "-" && four_digits s'
     | EmptyString => false
     end.
Proof.
  unfold well_formed_month, four_digits.
  destruct s as [|h [|y1 [|y2 [|y3 [|y4 [|c rest]]]]]];
    rewrite ?andb_false_r, ?andb_assoc; reflexivity.
Qed.

Theorem isValidMonthYear_spec s : isValidMonthYear s = well_formed_month s.
Proof.
  unfold isValidMonthYear. fold (present (Parse_01_2006 s)). rewrite Parse_unfold.
  destruct s as [|m1 [|m2 s]]; [reflexivity | rewrite getnum_fixed_short; reflexivity |].
  rewrite getnum_fixed_2, well_formed_unfold.
  destruct (is_digit m1 && is_digit m2); [|reflexivity].
  cbn [andb].
  replace (digit_value m1 * 10 + digit_value m2 <=? 0)
    with (negb (1 <=? 10 * digit_value m1 + digit_value m2))
    by (destruct (Z.leb_spec 1 (10 * digit_value m1 + digit_value m2));
        destruct (Z.leb_spec (digit_value m1 * 10 + digit_value m2) 0); simpl; lia).
  replace (12 <? digit_value m1 * 10 + digit_value m2)
    with (negb (10 * digit_value m1 + digit_value m2 <=? 12))
    by (destruct (Z.leb_spec (10 * digit_value m1 + digit_value m2) 12);
        destruct (Z.ltb_spec 12 (digit_value m1 * 10 + digit_value m2)); simpl; lia).
  destruct (1 <=? 10 * digit_value m1 + digit_value m2); [|reflexivity].
  destruct (10 * digit_value m1 + digit_value m2 <=? 12); [|reflexivity].
  cbn [negb orb andb].
  rewrite skip_hyphen.
  destruct s as [|h s]; [reflexivity|].
  destruct (Ascii.eqb h "-"); [|reflexivity].
  apply year_and_end_some.
Qed.

(** *** Rows selected by a condition *)

Section Selection.
Variable args : list value.
Variable cond : expr.
Variable pred : Subscription -> bool.
Hypothesis selected_pred : forall r, selected args cond r = Ok (pred r).

Lemma where_rows_filter rows : where_rows args cond rows = Ok (filter pred rows).
Proof.
  induction rows as [|r rows IH]; [reflexivity|].
  cbn [where_rows filter]. rewrite selected_pred, IH. reflexivity.
Qed.

Lemma delete_rows_filter rows :
  delete_rows args cond rows
  = Ok (filter (fun r => negb (pred r)) rows, Z.of_nat (List.length (filter pred rows))).
Proof.
  induction rows as [|r rows IH]; [reflexivity|].
  cbn [delete_rows filter]. rewrite selected_pred, IH.
  destruct (pred r); cbn [negb List.length]; do 2 f_equal; lia.
Qed.

Variable sets : list (string * operand).
Variable upd : Subscription -> Subscription.
Hypothesis sets_upd : forall r, pred r = true -> apply_sets args r sets r = Ok (upd r).

Lemma update_rows_map rows :
  forallb (fun r => check_row (upd r)) (filter pred rows) = true ->
  update_rows args sets cond rows
  = Ok (map (fun r => if pred r then upd r else r) rows,
        Z.of_nat (List.length (filter pred rows))).
Proof.
  induction rows as [|r rows IH]; [reflexivity|].
  cbn [update_rows filter map]. rewrite selected_pred.
  destruct (pred r) eqn:P.
  - cbn [forallb]. intros H. apply andb_true_iff in H. destruct H as [C H].
    rewrite sets_upd by assumption. rewrite C. cbn [negb].
    rewrite IH by assumption. cbn [List.length]. do 2 f_equal. lia.
  - intros H. rewrite IH by assumption. reflexivity.
Qed.

Lemma update_rows_check rows :
  forallb (fun r => check_row (upd r)) (filter pred rows) = false ->
  update_rows args sets cond rows = Err (ErrPq check_violation).
Proof.
  induction rows as [|r rows IH]; [discriminate|].
  cbn [update_rows filter]. rewrite selected_pred.
  destruct (pred r) eqn:P.
  - cbn [forallb]. intros H. rewrite sets_upd by assumption.
    destruct (check_row (upd r)); cbn [negb andb] in *; [|reflexivity].
    rewrite IH by assumption. reflexivity.
  - intros H. rewrite IH by assumption. reflexivity.
Qed.
End Selection.

Lemma column_values_price rows :
  column_values "price" rows = Ok (map (fun r => VInt (Price r)) rows).
Proof.
  induction rows as [|r rows IH]; [reflexivity|].
  cbn [column_values map]. rewrite IH. reflexivity.
Qed.

Lemma sum_values_price rows :
  sum_values (map (fun r => VInt (Price r)) rows)
  = Ok (match rows with [] => None | _ => Some (total_price rows) end).
Proof.
  induction rows as [|r rows IH]; [reflexivity|].
  cbn [map sum_values]. rewrite IH.
  destruct rows; cbn [total_price fold_right]; do 2 f_equal; lia.
Qed.

Lemma eval_one_eq_one args r :
  eval_expr args r (ECmp (OInt 1) CmpEq (OInt 1)) = Ok (Some true).
Proof. reflexivity. Qed.

Lemma eval_user_id args r k u :
  nth_error args k = Some (VUuid u) ->
  eval_expr args r (ECmp (OCol "user_id") CmpEq (OParam (S k))) = Ok (Some (N.eqb (UserID r) u)).
Proof.
  intros H. cbn. rewrite H. cbn. f_equal. f_equal.
  destruct (N.compare_spec (UserID r) u) as [E|E|E]; cbn; symmetry;
    [apply N.eqb_eq | apply N.eqb_neq | apply N.eqb_neq]; lia.
Qed.

Lemma string_compare_refl a : String.compare a a = Eq.
Proof.
  pose proof (String.compare_antisym a a) as H.
  destruct (String.compare a a); [reflexivity | discriminate | discriminate].
Qed.

Lemma string_eqb_compare a b :
  String.eqb a b = match String.compare a b with Eq => true | _ => false end.
Proof.
  destruct (String.compare a b) eqn:E.
  - apply String.compare_eq_iff in E. subst. apply String.eqb_refl.
  - apply String.eqb_neq. intros ->. rewrite string_compare_refl in E. discriminate.
  - apply String.eqb_neq. intros ->. rewrite string_compare_refl in E. discriminate.
Qed.

Lemma eval_service_name args r k n :
  nth_error args k = Some (VText n) ->
  eval_expr args r (ECmp (OCol "service_name") CmpEq (OParam (S k)))
  = Ok (Some (String.eqb (ServiceName r) n)).
Proof.
  intros H. cbn. rewrite H. cbn. rewrite string_eqb_compare.
  destruct (String.compare (ServiceName r) n); reflexivity.
Qed.

Lemma eval_start_date args r k e :
  nth_error args k = Some (VText e) ->
  eval_expr args r (ECmp (OCol "start_date") CmpLe (OParam (S k)))
  = Ok (Some (String.leb (StartDate r) e)).
Proof.
  intros H. cbn. rewrite H. cbn. unfold String.leb.
  destruct (String.compare (StartDate r) e); reflexivity.
Qed.

Lemma eval_end_date args r k s :
  nth_error args k = Some (VText s) ->
  eval_expr args r (EOr (EIsNull (OCol "end_date")) (ECmp (OCol "end_date") CmpGe (OParam (S k))))
  = Ok (Some (match EndDate r with None => true | Some d => String.leb s d end)).
Proof.
  intros H. cbn. rewrite H. destruct (EndDate r) as [d|]; cbn; [|reflexivity].
  unfold String.leb. rewrite (String.compare_antisym d s).
  destruct (String.compare s d); reflexivity.
Qed.

Lemma eval_id args r k id :
  nth_error args k = Some (VUuid id) ->
  eval_expr args r (ECmp (OCol "id") CmpEq (OParam (S k))) = Ok (Some (id_eqb (ID r) id)).
Proof.
  intros H. cbn. rewrite H. cbn. f_equal. f_equal. unfold id_eqb.
  destruct (N.compare_spec (ID r) id) as [E|E|E]; cbn; symmetry;
    [apply N.eqb_eq | apply N.eqb_neq | apply N.eqb_neq]; lia.
Qed.

(** *** The statements of the repository, as the store reads them *)

Lemma GetTotalCost_query_parses s e u n :
  parse_stmt (tokens (fst (GetTotalCost_query s e u n)))
  = Some (total_stmt (present u) (present n)).
Proof. destruct u, n; vm_compute; reflexivity. Qed.

Lemma GetTotalCost_query_args s e u n :
  snd (GetTotalCost_query s e u n) = VText s :: VText e :: filter_args u n.
Proof. destruct u, n; reflexivity. Qed.

Lemma List_query_parses u n :
  parse_stmt (tokens (fst (List_query u n))) = Some (list_stmt (present u) (present n)).
Proof. destruct u, n; vm_compute; reflexivity. Qed.

Lemma List_query_args u n : snd (List_query u n) = filter_args u n.
Proof. destruct u, n; reflexivity. Qed.

Lemma eval_and args r a b :
  eval_expr args r (EAnd a b)
  = match eval_expr args r a, eval_expr args r b with
    | Ok x, Ok y => Ok (and3 x y)
    | Err e, _ => Err e
    | _, Err e => Err e
    end.
Proof. reflexivity. Qed.

Lemma and3_some x y : and3 (Some x) (Some y) = Some (x && y).
Proof. destruct x, y; reflexivity. Qed.

Lemma selected_of_eval args cond r b :
  eval_expr args r cond = Ok (Some b) -> selected args cond r = Ok b.
Proof. unfold selected. intros ->. destruct b; reflexivity. Qed.

(** The filter predicates select the rows that [passes] keeps. *)
Lemma eval_filter_preds pre u n r e0 b0 :
  eval_expr (pre ++ filter_args u n) r e0 = Ok (Some b0) ->
  eval_expr (pre ++ filter_args u n) r
            (conj e0 (filter_preds (S (List.length pre)) (present u) (present n)))
  = Ok (Some (b0 && passes u n r)).
Proof.
  intros H0. unfold passes, filter_preds, filter_args in *.
  destruct u as [u|], n as [n|]; cbn [present conj app] in *.
  - rewrite !eval_and, H0.
    rewrite (eval_user_id _ r (List.length pre) u)
      by (rewrite nth_error_app2, Nat.sub_diag by lia; reflexivity).
    rewrite (eval_service_name _ r (S (List.length pre)) n).
    2:{ rewrite nth_error_app2 by lia.
        replace (S (List.length pre) - List.length pre)%nat with 1%nat by lia. reflexivity. }
    rewrite !and3_some. reflexivity.
  - rewrite !eval_and, H0.
    rewrite (eval_user_id _ r (List.length pre) u)
      by (rewrite nth_error_app2, Nat.sub_diag by lia; reflexivity).
    rewrite !and3_some, andb_true_r. reflexivity.
  - rewrite !eval_and, H0.
    rewrite (eval_service_name _ r (List.length pre) n)
      by (rewrite nth_error_app2, Nat.sub_diag by lia; reflexivity).
    rewrite !and3_some. reflexivity.
  - rewrite H0, andb_true_r. reflexivity.
Qed.

Lemma selected_total s e u n r :
  selected (VText s :: VText e :: filter_args u n)
           (conj end_date_cond (start_date_cond :: filter_preds 3 (present u) (present n))) r
  = Ok (overlaps s e r && passes u n r).
Proof.
  apply selected_of_eval.
  cbn [conj]. rewrite eval_and.
  unfold end_date_cond. rewrite (eval_end_date _ r 0%nat s) by reflexivity.
  pose proof (eval_filter_preds [VText s; VText e] u n r start_date_cond
                (String.leb (StartDate r) e)) as H.
  cbn [app List.length] in H. rewrite H.
  2:{ unfold start_date_cond. apply (eval_start_date _ r 1%nat e). reflexivity. }
  rewrite and3_some. unfold overlaps. rewrite andb_assoc. reflexivity.
Qed.

Lemma selected_list u n r :
  selected (filter_args u n)
           (conj (ECmp (OInt 1) CmpEq (OInt 1)) (filter_preds 1 (present u) (present n))) r
  = Ok (passes u n r).
Proof.
  apply selected_of_eval.
  pose proof (eval_filter_preds [] u n r (ECmp (OInt 1) CmpEq (OInt 1)) true) as H.
  cbn [app List.length] in H. rewrite H by reflexivity. reflexivity.
Qed.

Lemma Query_parsed query args db st :
  parse_stmt (tokens query) = Some st ->
  Query query args db = (send query args db, query_stmt st args (table db)).
Proof. unfold Query. intros ->. reflexivity. Qed.

(** What [GetTotalCost] returns on well-formed months. *)
Lemma GetTotalCost_valid s e u n db :
  isValidMonthYear s = true -> isValidMonthYear e = true ->
  GetTotalCost s e u n db
  = (send (fst (GetTotalCost_query s e u n)) (snd (GetTotalCost_query s e u n)) db,
     Ok (total_price (filter (fun r => overlaps s e r && passes u n r) (table db)))).
Proof.
  intros Hs He. unfold GetTotalCost. rewrite Hs, He. cbn [negb orb].
  destruct (GetTotalCost_query s e u n) as [query args] eqn:Q.
  pose proof (GetTotalCost_query_parses s e u n) as P.
  pose proof (GetTotalCost_query_args s e u n) as A.
  rewrite Q in P, A. cbn [fst snd] in *.
  unfold Get_int. rewrite (Query_parsed _ _ _ _ P).
  unfold total_stmt, query_stmt.
  change (known_table "subscriptions") with true. cbn [negb].
  cbn [table send]. subst args.
  rewrite (where_rows_filter _ _ _ (selected_total s e u n)).
  rewrite column_values_price, sum_values_price.
  destruct (filter _ (table db)); reflexivity.
Qed.

(** *** ORDER BY *)

Section Sorting.
Variable before : Subscription -> Subscription -> bool.
Hypothesis before_total : forall a b, before a b = true \/ before b a = true.

Lemma insert_sorted_perm x l : Permutation (insert_sorted before x l) (x :: l).
Proof.
  induction l as [|y l IH]; cbn [insert_sorted]; [reflexivity|].
  destruct (before x y); [reflexivity|].
  rewrite IH. apply perm_swap.
Qed.

Lemma sort_rows_perm l : Permutation (sort_rows before l) l.
Proof.
  induction l as [|x l IH]; cbn [sort_rows]; [reflexivity|].
  rewrite insert_sorted_perm. apply perm_skip, IH.
Qed.

Lemma insert_sorted_hd x y l :
  before y x = true -> HdRel (fun a b => before a b = true) y l ->
  HdRel (fun a b => before a b = true) y (insert_sorted before x l).
Proof.
  intros Hyx H. destruct l as [|z l]; cbn [insert_sorted].
  - constructor. exact Hyx.
  - destruct (before x z); constructor; [exact Hyx|].
    inversion H; assumption.
Qed.

Lemma insert_sorted_sorted x l :
  Sorted (fun a b => before a b = true) l ->
  Sorted (fun a b => before a b = true) (insert_sorted before x l).
Proof.
  induction 1 as [|y l Hs IH Hhd]; cbn [insert_sorted].
  - repeat constructor.
  - destruct (before x y) eqn:E.
    + constructor; [constructor; assumption|]. constructor. exact E.
    + constructor; [exact IH|].
      apply insert_sorted_hd; [|exact Hhd].
      destruct (before_total x y) as [H|H]; [congruence|exact H].
Qed.

Lemma sort_rows_sorted l : Sorted (fun a b => before a b = true) (sort_rows before l).
Proof.
  induction l as [|x l IH]; cbn [sort_rows]; [constructor|].
  apply insert_sorted_sorted, IH.
Qed.
End Sorting.

Lemma desc_by_start_date a b :
  desc_by "start_date" a b = String.leb (StartDate b) (StartDate a).
Proof. reflexivity. Qed.

(** What [List] returns. *)
Lemma List_returns u n db :
  List u n db
  = (send (fst (List_query u n)) (snd (List_query u n)) db,
     Ok (sort_rows (desc_by "start_date") (filter (passes u n) (table db)))).
Proof.
  unfold List.
  destruct (List_query u n) as [query args] eqn:Q.
  pose proof (List_query_parses u n) as P.
  pose proof (List_query_args u n) as A.
  rewrite Q in P, A. cbn [fst snd] in *.
  unfold Select_structs. rewrite (Query_parsed _ _ _ _ P).
  unfold list_stmt, query_stmt.
  change (known_table "subscriptions") with true. cbn [negb].
  change (known_column "start_date") with true. cbv iota.
  cbn [table send]. subst args.
  rewrite (where_rows_filter _ _ _ (selected_list u n)).
  reflexivity.
Qed.

(** *** INSERT, UPDATE, DELETE and the lookup by id *)

Lemma Create_query_parses :
  parse_stmt (tokens Create_query)
  = Some (Insert "subscriptions"
                 ["id"; "service_name"; "price"; "user_id"; "start_date"; "end_date"]
                 [ONamed "id"; ONamed "service_name"; ONamed "price";
                  ONamed "user_id"; ONamed "start_date"; ONamed "end_date"]).
Proof. vm_compute. reflexivity. Qed.

Lemma Update_query_parses :
  parse_stmt (tokens Update_query)
  = Some (Sql.Update "subscriptions"
                 [("service_name", ONamed "service_name"); ("price", ONamed "price");
                  ("user_id", ONamed "user_id"); ("start_date", ONamed "start_date");
                  ("end_date", ONamed "end_date")]
                 (ECmp (OCol "id") CmpEq (ONamed "id"))).
Proof. vm_compute. reflexivity. Qed.

Lemma Delete_query_parses :
  parse_stmt (tokens Delete_query)
  = Some (Sql.Delete "subscriptions" (ECmp (OCol "id") CmpEq (OParam 1))).
Proof. vm_compute. reflexivity. Qed.

Lemma GetByID_query_parses :
  parse_stmt (tokens GetByID_query)
  = Some (Select SelStar "subscriptions" (ECmp (OCol "id") CmpEq (OParam 1)) None).
Proof. vm_compute. reflexivity. Qed.

Lemma refused_Create_args sub : refused (Create_args sub) = refusal sub.
Proof.
  unfold Create_args, refusal, end_date_value. cbn [refused refused_value].
  destruct (text_ok (ServiceName sub)); [|reflexivity].
  destruct (int4 (Price sub)); [|reflexivity].
  destruct (text_ok (StartDate sub)); [|reflexivity].
  destruct (EndDate sub) as [d|]; [|reflexivity].
  cbn [negb refused refused_value]. destruct (text_ok d); reflexivity.
Qed.

Lemma refused_Update_args sub : refused (Update_args sub) = refusal sub.
Proof.
  unfold Update_args, refusal, end_date_value. cbn [refused refused_value].
  destruct (text_ok (ServiceName sub)); [|reflexivity].
  destruct (int4 (Price sub)); [|reflexivity].
  destruct (text_ok (StartDate sub)); [|reflexivity].
  destruct (EndDate sub) as [d|]; [|reflexivity].
  cbn [negb refused refused_value]. destruct (text_ok d); reflexivity.
Qed.

Lemma refusal_storable sub : storable sub = true -> refusal sub = None.
Proof.
  unfold storable, refusal. intros H.
  apply andb_true_iff in H. destruct H as [H E].
  apply andb_true_iff in H. destruct H as [H D].
  apply andb_true_iff in H. destruct H as [N P].
  rewrite N, P, D. cbn [negb]. destruct (EndDate sub); [rewrite E|]; reflexivity.
Qed.

Lemma refusal_not_storable sub :
  storable sub = false -> exists e, refusal sub = Some e /\ constraint_error e = true.
Proof.
  unfold storable, refusal.
  destruct (text_ok (ServiceName sub)); cbn [negb andb]; [|eexists; split; reflexivity].
  destruct (int4 (Price sub)); cbn [negb andb]; [|eexists; split; reflexivity].
  destruct (text_ok (StartDate sub)); cbn [negb andb]; [|eexists; split; reflexivity].
  destruct (EndDate sub) as [d|]; [|discriminate].
  destruct (text_ok d); [discriminate|eexists; split; reflexivity].
Qed.

Lemma refusal_constraint_error sub e : refusal sub = Some e -> constraint_error e = true.
Proof.
  unfold refusal.
  destruct (text_ok (ServiceName sub)); cbn [negb]; [|intros H; inversion H; reflexivity].
  destruct (int4 (Price sub)); cbn [negb]; [|intros H; inversion H; reflexivity].
  destruct (text_ok (StartDate sub)); cbn [negb]; [|intros H; inversion H; reflexivity].
  destruct (EndDate sub) as [d|]; [|discriminate].
  destruct (text_ok d); [discriminate|intros H; inversion H; reflexivity].
Qed.

Lemma storable_refusal sub : refusal sub = None -> storable sub = true.
Proof.
  intros H. destruct (storable sub) eqn:S; [reflexivity|].
  destruct (refusal_not_storable _ S) as (e & E & _). congruence.
Qed.

Lemma Create_unfold sub db :
  Create sub db =
  let db1 := send Create_query (Create_args sub) db in
  match refusal sub with
  | Some e => (db1, Some (ErrPq e))
  | None =>
      if negb (0 <? Price sub) then (db1, Some (ErrPq check_violation))
      else if has_id (ID sub) (table db) then (db1, Some (ErrPq unique_violation))
      else (mkDB (table db ++ [sub]) (issued db1), None)
  end.
Proof.
  unfold Create, NamedExec. rewrite Create_query_parses.
  assert (B : bind_stmt sub
                (Insert "subscriptions"
                   ["id"; "service_name"; "price"; "user_id"; "start_date"; "end_date"]
                   [ONamed "id"; ONamed "service_name"; ONamed "price";
                    ONamed "user_id"; ONamed "start_date"; ONamed "end_date"])
              = Ok (Insert "subscriptions"
                      ["id"; "service_name"; "price"; "user_id"; "start_date"; "end_date"]
                      [OParam 1; OParam 2; OParam 3; OParam 4; OParam 5; OParam 6],
                    Create_args sub)) by reflexivity.
  rewrite B. cbv zeta. unfold exec_stmt. cbn [table send].
  rewrite refused_Create_args. destruct (refusal sub) as [e|]; [reflexivity|].
  destruct sub as [id sn p uid sd ed].
  destruct ed as [ed|]; cbn -[Z.ltb Create_query check_row has_id];
    unfold check_row; cbn [Price ID];
    (destruct (0 <? p); cbn [negb]; [|reflexivity]);
    destruct (has_id id (table db)); reflexivity.
Qed.

Lemma has_id_filter id rows :
  has_id id rows = negb (Z.of_nat (List.length (filter (same_id id) rows)) =? 0).
Proof.
  induction rows as [|r rows IH]; [reflexivity|].
  cbn [has_id existsb filter]. fold (has_id id rows). unfold same_id at 1.
  destruct (id_eqb (ID r) id); cbn [orb List.length]; [|exact IH].
  symmetry. apply negb_true_iff, Z.eqb_neq. lia.
Qed.

Lemma filter_none_same_id id rows :
  has_id id rows = false -> filter (same_id id) rows = [].
Proof.
  induction rows as [|r rows IH]; [reflexivity|].
  cbn [has_id existsb filter]. fold (has_id id rows). unfold same_id at 1.
  destruct (id_eqb (ID r) id); cbn [orb]; [discriminate|exact IH].
Qed.

Lemma filter_other_id id rows :
  has_id id rows = false -> filter (fun r => negb (same_id id r)) rows = rows.
Proof.
  induction rows as [|r rows IH]; [reflexivity|].
  cbn [has_id existsb filter]. fold (has_id id rows). unfold same_id at 1.
  destruct (id_eqb (ID r) id); cbn [orb negb]; [discriminate|].
  intros H. rewrite IH by assumption. reflexivity.
Qed.

Lemma map_other_id id (f : Subscription -> Subscription) rows :
  has_id id rows = false -> map (fun r => if same_id id r then f r else r) rows = rows.
Proof.
  induction rows as [|r rows IH]; [reflexivity|].
  cbn [has_id existsb map]. fold (has_id id rows). unfold same_id at 1.
  destruct (id_eqb (ID r) id); cbn [orb]; [discriminate|].
  intros H. rewrite IH by assumption. reflexivity.
Qed.

Lemma id_eqb_eq a b : id_eqb a b = true <-> a = b.
Proof. apply N.eqb_eq. Qed.

Lemma overwrite_same_id sub r : same_id (ID sub) r = true -> overwrite sub r = sub.
Proof.
  unfold same_id. intros H. apply id_eqb_eq in H.
  unfold overwrite. rewrite H. destruct sub; reflexivity.
Qed.

Lemma map_overwrite sub rows :
  map (fun r => if same_id (ID sub) r then overwrite sub r else r) rows
  = map (fun r => if same_id (ID sub) r then sub else r) rows.
Proof.
  apply map_ext. intros r. destruct (same_id (ID sub) r) eqn:E; [|reflexivity].
  apply overwrite_same_id, E.
Qed.

Lemma forallb_check_overwrite sub rows :
  forallb (fun r => check_row (overwrite sub r)) (filter (same_id (ID sub)) rows)
  = negb (has_id (ID sub) rows) || (0 <? Price sub).
Proof.
  induction rows as [|r rows IH]; [reflexivity|].
  cbn [has_id existsb filter]. fold (has_id (ID sub) rows). unfold same_id at 1.
  destruct (id_eqb (ID r) (ID sub)); cbn [orb negb forallb]; [|exact IH].
  rewrite IH. unfold check_row, overwrite. cbn [Price].
  destruct (0 <? Price sub); [rewrite orb_true_r|]; reflexivity.
Qed.

Lemma apply_Update_sets sub r :
  apply_sets (Update_args sub) r Update_sets r = Ok (overwrite sub r).
Proof.
  unfold Update_args, end_date_value, overwrite.
  destruct (EndDate sub); reflexivity.
Qed.

Lemma selected_same_id args k id r :
  nth_error args k = Some (VUuid id) ->
  selected args (ECmp (OCol "id") CmpEq (OParam (S k))) r = Ok (same_id id r).
Proof. intros H. apply selected_of_eval, eval_id, H. Qed.

Lemma bind_Update sub :
  bind_stmt sub (Sql.Update "subscriptions"
                 [("service_name", ONamed "service_name"); ("price", ONamed "price");
                  ("user_id", ONamed "user_id"); ("start_date", ONamed "start_date");
                  ("end_date", ONamed "end_date")]
                 (ECmp (OCol "id") CmpEq (ONamed "id")))
  = Ok (Sql.Update "subscriptions" Update_sets (ECmp (OCol "id") CmpEq (OParam 6)),
        Update_args sub).
Proof. reflexivity. Qed.

Lemma Update_unfold sub db :
  Update sub db =
  let db1 := send Update_query (Update_args sub) db in
  match refusal sub with
  | Some e => (db1, Some (ErrPq e))
  | None =>
      if has_id (ID sub) (table db) then
        if 0 <? Price sub then
          (mkDB (map (fun r => if same_id (ID sub) r then sub else r) (table db)) (issued db1),
           None)
        else (db1, Some (ErrPq check_violation))
      else (mkDB (table db) (issued db1), Some (ErrNotFound (ID sub)))
  end.
Proof.
  unfold Update, NamedExec. rewrite Update_query_parses, bind_Update.
  cbv zeta. unfold exec_stmt. cbn [table send].
  rewrite refused_Update_args. destruct (refusal sub) as [e|]; [reflexivity|].
  unfold apply_stmt.
  change (known_table "subscriptions") with true. cbn [negb].
  change (existsb (fun s => String.eqb (fst s) "id") Update_sets) with false.
  cbn [andb table send].
  pose proof (forallb_check_overwrite sub (table db)) as C.
  destruct (has_id (ID sub) (table db)) eqn:H; cbn [negb orb] in C.
  - destruct (0 <? Price sub) eqn:P.
    + rewrite (update_rows_map (Update_args sub) _ (same_id (ID sub))
                 (fun r => selected_same_id (Update_args sub) 5%nat (ID sub) r eq_refl)
                 _ (overwrite sub) (fun r _ => apply_Update_sets sub r) _ C).
      rewrite map_overwrite.
      rewrite has_id_filter in H. apply negb_true_iff in H. rewrite H. reflexivity.
    + rewrite (update_rows_check (Update_args sub) _ (same_id (ID sub))
                 (fun r => selected_same_id (Update_args sub) 5%nat (ID sub) r eq_refl)
                 _ (overwrite sub) (fun r _ => apply_Update_sets sub r) _ C).
      reflexivity.
  - rewrite (update_rows_map (Update_args sub) _ (same_id (ID sub))
               (fun r => selected_same_id (Update_args sub) 5%nat (ID sub) r eq_refl)
               _ (overwrite sub) (fun r _ => apply_Update_sets sub r) _ C).
    rewrite (map_other_id _ _ _ H), (filter_none_same_id _ _ H). reflexivity.
Qed.

Lemma Delete_unfold id db :
  Delete id db =
  let db1 := send Delete_query [VUuid id] db in
  if has_id id (table db) then
    (mkDB (filter (fun r => negb (same_id id r)) (table db)) (issued db1), None)
  else (mkDB (table db) (issued db1), Some (ErrNotFound id)).
Proof.
  unfold Delete, Exec. rewrite Delete_query_parses.
  cbv zeta. unfold exec_stmt, apply_stmt. cbn [refused refused_value].
  change (known_table "subscriptions") with true. cbn [negb table send].
  rewrite (delete_rows_filter _ _ (same_id id)
             (fun r => selected_same_id [VUuid id] 0%nat id r eq_refl)).
  destruct (has_id id (table db)) eqn:H.
  - rewrite has_id_filter in H. apply negb_true_iff in H. rewrite H. reflexivity.
  - rewrite (filter_other_id _ _ H), (filter_none_same_id _ _ H). reflexivity.
Qed.

Lemma GetByID_unfold id db :
  GetByID id db =
  (send GetByID_query [VUuid id] db,
   match filter (same_id id) (table db) with
   | r :: _ => Ok r
   | [] => Err ErrNoRows
   end).
Proof.
  unfold GetByID, Get_struct. rewrite (Query_parsed _ _ _ _ GetByID_query_parses).
  unfold query_stmt.
  change (known_table "subscriptions") with true. cbn [negb table send].
  rewrite (where_rows_filter _ _ (same_id id)
             (fun r => selected_same_id [VUuid id] 0%nat id r eq_refl)).
  destruct (filter (same_id id) (table db)); reflexivity.
Qed.

(** ** Sample data *)

(** ** The claims of the specification *)


Lemma total_price_app l1 l2 : total_price (l1 ++ l2) = total_price l1 + total_price l2.
Proof.
  induction l1 as [|x l1 IH]; cbn [app total_price fold_right]; [reflexivity|].
  fold (total_price (l1 ++ l2)) (total_price l1). rewrite IH. lia.
Qed.

Lemma total_price_filter_insert p l1 x l2 :
  total_price (filter p (l1 ++ x :: l2))
  = total_price (filter p (l1 ++ l2)) + (if p x then Price x else 0).
Proof.
  rewrite !filter_app, !total_price_app. cbn [filter].
  destruct (p x); cbn [total_price fold_right]; fold (total_price (filter p l2)); lia.
Qed.




Example GetTotalCost_sample :
  snd (GetTotalCost "06-2025" "08-2025" (Some 7%N) None Sample.db) = Ok 400.
Proof. reflexivity. Qed.



Lemma string_leb_cases a b : String.leb a b = true -> a = b \/ String_as_OT.lt a b.
Proof.
  unfold String.leb. destruct (String.compare a b) eqn:E; intros H.
  - left. apply String.compare_eq_iff, E.
  - right. apply String_as_OT.cmp_lt, E.
  - discriminate.
Qed.


Lemma string_leb_trans a b c :
  String.leb a b = true -> String.leb b c = true -> String.leb a c = true.
Proof.
  intros H1 H2.
  assert (H : a = c \/ String_as_OT.lt a c).
  { destruct (string_leb_cases _ _ H1) as [->|L1]; [exact (string_leb_cases _ _ H2)|].
    destruct (string_leb_cases _ _ H2) as [<-|L2]; [right; exact L1|].
    right. exact (String_as_OT.lt_trans _ _ _ L1 L2). }
  unfold String.leb. destruct H as [->|L].
  - rewrite string_compare_refl. reflexivity.
  - apply String_as_OT.cmp_lt in L. unfold String_as_OT.cmp in L. rewrite L. reflexivity.
Qed.



(** C3, counterexample. [Create] stores a record whose start_date is
    "13-2025": it returns no error and the INSERT is issued. *)
Lemma Create_accepts_malformed_start_date :
  isValidMonthYear (StartDate Sample.bad_month) = false
  /\ Create Sample.bad_month Sample.empty
     = (mkDB [Sample.bad_month] [(Create_query, Create_args Sample.bad_month)], None).
Proof. split; reflexivity. Qed.

(** C3, amended. A month string that is not well-formed "MM-YYYY", given
    to [GetTotalCost] as startMonth or as endMonth, makes it fail with the
    validation error before any store access: the store, with the list of
    statements issued to it, is returned as it was.  For creation the check
    is made by the handler [CreateSubscription], in front of [Create]: with
    such a start_date it answers 400 Bad Request and the store is not
    accessed.  [Create] itself does not look at the month. *)
Theorem malformed_month_rejected_before_store_access :
  (forall db startMonth endMonth userID serviceName,
      well_formed_month startMonth = false \/ well_formed_month endMonth = false ->
      GetTotalCost startMonth endMonth userID serviceName db = (db, Err ErrInvalidMonth))
  /\ (forall uuid_Parse input newID db,
         well_formed_month (Handler.in_StartDate input) = false ->
         exists msg,
           Handler.CreateSubscription uuid_Parse (Some input) newID db
           = (db, Handler.Error msg Handler.StatusBadRequest)).
Proof.
  split.
  - intros db s e u n H. unfold GetTotalCost.
    rewrite !isValidMonthYear_spec.
    destruct H as [-> | ->]; [|rewrite orb_true_r]; reflexivity.
  - intros uuid_Parse input newID db H. unfold Handler.CreateSubscription.
    rewrite isValidMonthYear_spec, H.
    destruct (String.eqb _ ""); [eexists; reflexivity|].
    destruct (Handler.in_Price input <=? 0); [eexists; reflexivity|].
    destruct (uuid_Parse _); eexists; reflexivity.
Qed.

Lemma malformed_month_rejected_before_store_access_witness :
  (well_formed_month "2025-07" = false
   /\ GetTotalCost "2025-07" "08-2025" None None Sample.db = (Sample.db, Err ErrInvalidMonth))
  /\ (well_formed_month "13-2025" = false
      /\ GetTotalCost "07-2025" "13-2025" None None Sample.db = (Sample.db, Err ErrInvalidMonth))
  /\ (well_formed_month (Handler.in_StartDate Sample.input) = false
      /\ exists msg,
          Handler.CreateSubscription Sample.parse (Some Sample.input) 9%N Sample.db
          = (Sample.db, Handler.Error msg Handler.StatusBadRequest)).
Proof.
  split; [split; [reflexivity|]|split; [split; [reflexivity|]|split; [reflexivity|]]].
  - exact (proj1 malformed_month_rejected_before_store_access
                 Sample.db "2025-07" "08-2025" None None (or_introl eq_refl)).
  - exact (proj1 malformed_month_rejected_before_store_access
                 Sample.db "07-2025" "13-2025" None None (or_intror eq_refl)).
  - exact (proj2 malformed_month_rejected_before_store_access
                 Sample.parse Sample.input 9%N Sample.db eq_refl).
Defined.



Example List_sample :
  snd (List None None (mkDB [Sample.B; Sample.A] [])) = Ok [Sample.A; Sample.B]
  /\ snd (List (Some 8%N) None Sample.db) = Ok [].
Proof. split; reflexivity. Qed.



Lemma has_id_false id rows : ~ In id (map ID rows) -> has_id id rows = false.
Proof.
  intros H. unfold has_id. apply not_true_is_false. intros E.
  apply existsb_exists in E. destruct E as (r & Hr & E). apply id_eqb_eq in E.
  apply H. rewrite <- E. apply in_map, Hr.
Qed.

Lemma has_id_true id rows : has_id id rows = true -> In id (map ID rows).
Proof.
  unfold has_id. intros E. apply existsb_exists in E.
  destruct E as (r & Hr & E). apply id_eqb_eq in E. rewrite <- E. apply in_map, Hr.
Qed.

Lemma has_id_in id rows : In id (map ID rows) -> has_id id rows = true.
Proof.
  intros I. unfold has_id. apply existsb_exists. apply in_map_iff in I.
  destruct I as (x & E & Hx). exists x. split; [exact Hx|]. apply id_eqb_eq, E.
Qed.

(** C6, counterexample. No stored row has id 3, and [Update] of a record
    with that id does not fail with the not-found error when the price is
    2147483648, above the INTEGER range of the column, or when the service
    name holds a zero byte: the store refuses the value first. *)
Lemma Update_unknown_id_refused_value :
  has_id 3%N (table Sample.db) = false
  /\ ID Unstorable.huge = 3%N
  /\ snd (Update Unstorable.huge Sample.db) = Some (ErrPq numeric_value_out_of_range)
  /\ ID Unstorable.nul = 3%N
  /\ snd (Update Unstorable.nul Sample.db) = Some (ErrPq character_not_in_repertoire).
Proof. repeat split. Qed.

(** C6, amended. When no stored row has the id, [Update] of a record with
    that id whose values the columns accept (a price within the INTEGER
    range, texts valid in the encoding of the database) fails with the
    not-found error, and so does [Delete] of that id; the table is unchanged
    in both cases.  [Update] of a record with a value the columns do not
    accept is refused with the error of the store for that value, whether a
    row has the id or not, and the table is unchanged as well.  An [Update]
    that succeeds has found a row with the id: no row affected is told apart
    from success. *)
Theorem Update_Delete_not_found :
  (forall db sub,
      storable sub = true ->
      ~ In (ID sub) (map ID (table db)) ->
      exists db', Update sub db = (db', Some (ErrNotFound (ID sub)))
                  /\ table db' = table db)
  /\ (forall db sub,
         storable sub = false ->
         exists db' e, Update sub db = (db', Some (ErrPq e))
                       /\ constraint_error e = true
                       /\ table db' = table db)
  /\ (forall db id,
         ~ In id (map ID (table db)) ->
         exists db', Delete id db = (db', Some (ErrNotFound id))
                     /\ table db' = table db)
  /\ (forall db sub db',
         Update sub db = (db', None) -> In (ID sub) (map ID (table db))).
Proof.
  split; [|split; [|split]].
  - intros db sub S H. rewrite Update_unfold. cbv zeta.
    rewrite (refusal_storable _ S), (has_id_false _ _ H). eexists. split; reflexivity.
  - intros db sub S. rewrite Update_unfold. cbv zeta.
    destruct (refusal_not_storable _ S) as (e & -> & C).
    eexists. exists e. split; [reflexivity|]. split; [exact C|reflexivity].
  - intros db id H. rewrite Delete_unfold. cbv zeta.
    rewrite (has_id_false _ _ H). eexists. split; reflexivity.
  - intros db sub db'. rewrite Update_unfold. cbv zeta.
    destruct (refusal sub); [discriminate|].
    destruct (has_id (ID sub) (table db)) eqn:H; [|discriminate].
    intros _. apply has_id_true, H.
Qed.

Lemma Update_Delete_not_found_witness :
  (storable Sample.C = true
   /\ ~ In (ID Sample.C) (map ID (table Sample.db))
   /\ exists db', Update Sample.C Sample.db = (db', Some (ErrNotFound (ID Sample.C)))
                  /\ table db' = table Sample.db)
  /\ (storable Unstorable.huge = false
      /\ exists db' e, Update Unstorable.huge Sample.db = (db', Some (ErrPq e))
                       /\ constraint_error e = true
                       /\ table db' = table Sample.db)
  /\ (~ In 3%N (map ID (table Sample.db))
      /\ exists db', Delete 3%N Sample.db = (db', Some (ErrNotFound 3%N))
                     /\ table db' = table Sample.db).
Proof.
  assert (H : ~ In 3%N (map ID (table Sample.db))).
  { cbn. intros [H|[H|[]]]; discriminate. }
  split; [|split].
  - split; [reflexivity|]. split; [exact H|].
    exact (proj1 Update_Delete_not_found Sample.db Sample.C eq_refl H).
  - split; [reflexivity|].
    exact (proj1 (proj2 Update_Delete_not_found) Sample.db Unstorable.huge eq_refl).
  - split; [exact H|].
    exact (proj1 (proj2 (proj2 Update_Delete_not_found)) Sample.db 3%N H).
Defined.

Lemma filter_same_id_app id l r :
  ~ In id (map ID l) -> ID r = id -> filter (same_id id) (l ++ [r]) = [r].
Proof.
  intros H E. rewrite filter_app, (filter_none_same_id _ _ (has_id_false _ _ H)).
  cbn [filter app]. unfold same_id. rewrite E.
  replace (id_eqb id id) with true by (symmetry; apply id_eqb_eq; reflexivity).
  reflexivity.
Qed.

(** C7. For a record with price > 0, a non-empty service_name, a valid
    start_date and an id no stored row has: if [Create] succeeds, then
    [GetByID] of that id succeeds and returns the record, equal in every
    field. *)
Theorem Create_GetByID_round_trip (db db' : DB) (r : Subscription) :
  0 < Price r ->
  ServiceName r <> "" ->
  well_formed_month (StartDate r) = true ->
  ~ In (ID r) (map ID (table db)) ->
  Create r db = (db', None) ->
  exists db'', GetByID (ID r) db' = (db'', Ok r) /\ table db'' = table db'.
Proof.
  intros _ _ _ Hfresh. rewrite Create_unfold. cbv zeta.
  destruct (refusal r); [discriminate|].
  destruct (0 <? Price r); cbn [negb]; [|discriminate].
  rewrite (has_id_false _ _ Hfresh). intros H. inversion H. subst db'. clear H.
  rewrite GetByID_unfold. cbn [table].
  rewrite (filter_same_id_app _ _ _ Hfresh eq_refl).
  eexists. split; reflexivity.
Qed.

Lemma Create_GetByID_round_trip_witness :
  exists db' db'',
    Create Sample.C Sample.db = (db', None)
    /\ GetByID (ID Sample.C) db' = (db'', Ok Sample.C)
    /\ table db'' = table db'.
Proof.
  eexists. 
  assert (H : ~ In (ID Sample.C) (map ID (table Sample.db))).
  { cbn. intros [H|[H|[]]]; discriminate. }
  assert (N : ServiceName Sample.C <> "") by discriminate.
  destruct (Create_GetByID_round_trip Sample.db _ Sample.C eq_refl N eq_refl H eq_refl)
    as (db'' & G & T).
  exists db''. split; [reflexivity|]. split; [exact G|exact T].
Defined.

Lemma table_GetByID id db : table (fst (GetByID id db)) = table db.
Proof. rewrite GetByID_unfold. reflexivity. Qed.

Lemma table_List u n db : table (fst (List u n db)) = table db.
Proof. rewrite List_returns. reflexivity. Qed.

Lemma table_GetTotalCost s e u n db : table (fst (GetTotalCost s e u n db)) = table db.
Proof.
  destruct (isValidMonthYear s) eqn:Hs, (isValidMonthYear e) eqn:He;
    [rewrite GetTotalCost_valid by assumption; reflexivity | | | ];
    unfold GetTotalCost; rewrite Hs, He; reflexivity.
Qed.

Lemma prices_positive_Create r db :
  prices_positive db -> prices_positive (fst (Create r db)).
Proof.
  unfold prices_positive. intros H. rewrite Create_unfold. cbv zeta.
  destruct (refusal r); [exact H|].
  destruct (0 <? Price r) eqn:P; cbn [negb]; [|exact H].
  destruct (has_id (ID r) (table db)); [exact H|].
  cbn [fst table]. apply Forall_app. split; [exact H|].
  constructor; [|constructor]. apply Z.ltb_lt, P.
Qed.

Lemma prices_positive_Update r db :
  prices_positive db -> prices_positive (fst (Update r db)).
Proof.
  unfold prices_positive. intros H. rewrite Update_unfold. cbv zeta.
  destruct (refusal r); [exact H|].
  destruct (has_id (ID r) (table db)); [|exact H].
  destruct (0 <? Price r) eqn:P; [|exact H].
  cbn [fst table]. apply Forall_map. apply Z.ltb_lt in P.
  revert H. apply Forall_impl. intros x Hx. destruct (same_id (ID r) x); assumption.
Qed.

Lemma prices_positive_Delete id db :
  prices_positive db -> prices_positive (fst (Delete id db)).
Proof.
  unfold prices_positive. intros H. rewrite Delete_unfold. cbv zeta.
  destruct (has_id id (table db)); [|exact H].
  cbn [fst table]. apply Forall_forall. intros x Hx. apply filter_In in Hx.
  destruct Hx as [Hx _]. revert x Hx. apply Forall_forall, H.
Qed.

(** C8, counterexample. [Update] with price 0 and an id that no row has
    fails with the not-found error, which is not a validation or constraint
    error. *)
Lemma Update_nonpositive_price_unknown_id :
  Price Sample.free <= 0
  /\ snd (Update Sample.free Sample.db) = Some (ErrNotFound (ID Sample.free))
  /\ ErrNotFound (ID Sample.free) <> ErrPq check_violation
  /\ ErrNotFound (ID Sample.free) <> ErrInvalidMonth.
Proof. repeat split; try discriminate. Qed.

(** C8, amended. Every stored subscription has price > 0: the empty table
    has it so and every operation keeps it so.  [Create] with price <= 0
    always fails with a validation or constraint error of the store (the
    price check, or a value the column does not take) and leaves the table
    unchanged.  [Update] with price <= 0 always fails and leaves the table
    unchanged: with such a validation or constraint error when a row has the
    id or a value of the record does not fit its column, and with the
    not-found error when no row has the id and the values fit.  The price is
    never changed into a positive one. *)
Theorem price_positive_invariant :
  (forall log, prices_positive (mkDB [] log))
  /\ (forall db,
      prices_positive db ->
      (forall r, prices_positive (fst (Create r db)))
      /\ (forall r, prices_positive (fst (Update r db)))
      /\ (forall id, prices_positive (fst (Delete id db)))
      /\ (forall id, table (fst (GetByID id db)) = table db)
      /\ (forall u n, table (fst (List u n db)) = table db)
      /\ (forall s e u n, table (fst (GetTotalCost s e u n db)) = table db))
  /\ (forall db r,
         Price r <= 0 ->
         exists db' e, Create r db = (db', Some (ErrPq e))
                       /\ constraint_error e = true
                       /\ table db' = table db)
  /\ (forall db r,
         Price r <= 0 ->
         exists db' err,
           Update r db = (db', Some err)
           /\ table db' = table db
           /\ (storable r = false \/ In (ID r) (map ID (table db)) ->
               exists e, err = ErrPq e /\ constraint_error e = true)
           /\ (storable r = true -> ~ In (ID r) (map ID (table db)) ->
               err = ErrNotFound (ID r))).
Proof.
  split; [intros log; constructor|]. split; [|split].
  - intros db H.
    split; [intros r; apply prices_positive_Create, H|].
    split; [intros r; apply prices_positive_Update, H|].
    split; [intros id; apply prices_positive_Delete, H|].
    split; [intros id; apply table_GetByID|].
    split; [intros u n; apply table_List|].
    intros s e u n; apply table_GetTotalCost.
  - intros db r P. rewrite Create_unfold. cbv zeta.
    destruct (refusal r) as [e|] eqn:R.
    + eexists. exists e. split; [reflexivity|].
      split; [exact (refusal_constraint_error _ _ R)|reflexivity].
    + replace (0 <? Price r) with false by (symmetry; apply Z.ltb_ge, P).
      eexists. eexists. split; [reflexivity|]. split; reflexivity.
  - intros db r P. rewrite Update_unfold. cbv zeta.
    destruct (refusal r) as [e|] eqn:R.
    + eexists. eexists. split; [reflexivity|]. split; [reflexivity|]. split.
      * intros _. exists e. split; [reflexivity|exact (refusal_constraint_error _ _ R)].
      * intros S. rewrite (refusal_storable _ S) in R. discriminate.
    + replace (0 <? Price r) with false by (symmetry; apply Z.ltb_ge, P).
      pose proof (storable_refusal _ R) as S.
      destruct (has_id (ID r) (table db)) eqn:H.
      * eexists. eexists. split; [reflexivity|]. split; [reflexivity|]. split.
        -- intros _. eexists. split; reflexivity.
        -- intros _ N. exfalso. apply N, has_id_true, H.
      * eexists. eexists. split; [reflexivity|]. split; [reflexivity|]. split.
        -- intros [S'|I]; [congruence|]. apply has_id_in in I. congruence.
        -- reflexivity.
Qed.

Lemma price_positive_invariant_witness :
  (prices_positive Sample.db
   /\ prices_positive (fst (Create Sample.C Sample.db))
   /\ prices_positive (fst (Update Sample.B' Sample.db))
   /\ prices_positive (fst (Delete 1%N Sample.db)))
  /\ (Price Sample.free <= 0
      /\ exists db' e, Create Sample.free Sample.db = (db', Some (ErrPq e))
                       /\ constraint_error e = true
                       /\ table db' = table Sample.db)
  /\ (Price Unstorable.below <= 0
      /\ exists db' err,
          Update Unstorable.below Sample.db = (db', Some err)
          /\ table db' = table Sample.db
          /\ (storable Unstorable.below = false
              \/ In (ID Unstorable.below) (map ID (table Sample.db)) ->
              exists e, err = ErrPq e /\ constraint_error e = true)
          /\ (storable Unstorable.below = true ->
              ~ In (ID Unstorable.below) (map ID (table Sample.db)) ->
              err = ErrNotFound (ID Unstorable.below))).
Proof.
  assert (H : prices_positive Sample.db).
  { unfold prices_positive. cbn. repeat constructor. }
  assert (P : Price Sample.free <= 0) by (cbn; lia).
  assert (Q : Price Unstorable.below <= 0) by (cbn; lia).
  destruct price_positive_invariant as (_ & I & C & U).
  destruct (I Sample.db H) as (IC & IU & ID & _).
  split; [|split].
  - split; [exact H|]. split; [apply IC|]. split; [apply IU|apply ID].
  - split; [exact P|]. exact (C Sample.db Sample.free P).
  - split; [exact Q|]. exact (U Sample.db Unstorable.below Q).
Defined.

Lemma split_unique_id rows r :
  NoDup (map ID rows) -> In r rows ->
  exists before after,
    rows = (before ++ r :: after)%list
    /\ ~ In (ID r) (map ID (before ++ after)%list).
Proof.
  intros N I. destruct (in_split _ _ I) as (before & after & E).
  exists before, after. split; [exact E|].
  subst rows. rewrite map_app in N. cbn [map] in N.
  apply NoDup_remove_2 in N. rewrite map_app. exact N.
Qed.

Lemma map_replace_same_id sub before r after :
  ID r = ID sub ->
  ~ In (ID sub) (map ID (before ++ after)%list) ->
  map (fun x => if same_id (ID sub) x then sub else x) (before ++ r :: after)%list
  = (before ++ sub :: after)%list.
Proof.
  intros E N. rewrite map_app in N.
  assert (Nb : ~ In (ID sub) (map ID before)) by (intros H; apply N, in_or_app; auto).
  assert (Na : ~ In (ID sub) (map ID after)) by (intros H; apply N, in_or_app; auto).
  rewrite map_app. cbn [map].
  rewrite (map_other_id _ (fun _ => sub) _ (has_id_false _ _ Nb)).
  rewrite (map_other_id _ (fun _ => sub) _ (has_id_false _ _ Na)).
  unfold same_id at 1. rewrite E.
  replace (id_eqb (ID sub) (ID sub)) with true by (symmetry; apply id_eqb_eq; reflexivity).
  reflexivity.
Qed.

(** C9. In a table (ids unique, as the primary key has them) with a row
    [r] whose id is [s.ID], a successful [Update s] puts [s] in the place of
    that one row: service_name, price, user_id, start_date and end_date are
    those of [s], the id is the one the row had, and every other row, each
    with a different id, is left as it was. *)
Theorem Update_replaces_one_row (db db' : DB) (s r : Subscription) :
  NoDup (map ID (table db)) ->
  In r (table db) ->
  ID r = ID s ->
  Update s db = (db', None) ->
  exists before after,
    table db = (before ++ r :: after)%list
    /\ table db' = (before ++ s :: after)%list
    /\ ID s = ID r
    /\ (forall x, In x (before ++ after)%list -> ID x <> ID s).
Proof.
  intros N I E. rewrite Update_unfold. cbv zeta.
  destruct (refusal s); [discriminate|].
  destruct (has_id (ID s) (table db)); [|discriminate].
  destruct (0 <? Price s); [|discriminate].
  intros H. inversion H. subst db'. clear H. cbn [table].
  destruct (split_unique_id _ _ N I) as (before & after & T & F).
  exists before, after. rewrite E in F.
  split; [exact T|]. split; [|split; [symmetry; exact E|]].
  - rewrite T. apply map_replace_same_id; assumption.
  - intros x Hx Ex. apply F. rewrite <- Ex. apply in_map, Hx.
Qed.

Lemma Update_replaces_one_row_witness :
  exists db' before after,
    Update Sample.B' Sample.db = (db', None)
    /\ table Sample.db = (before ++ Sample.B :: after)%list
    /\ table db' = (before ++ Sample.B' :: after)%list
    /\ ID Sample.B' = ID Sample.B
    /\ (forall x, In x (before ++ after)%list -> ID x <> ID Sample.B').
Proof.
  assert (N : NoDup (map ID (table Sample.db))).
  { cbn. constructor; [intros [H|[]]; discriminate|]. constructor; [intros []|constructor]. }
  assert (I : In Sample.B (table Sample.db)) by (cbn; auto).
  eexists.
  destruct (Update_replaces_one_row Sample.db _ Sample.B' Sample.B N I eq_refl eq_refl)
    as (before & after & H).
  exists before, after. split; [reflexivity|exact H].
Defined.

(** The primary key stays a key. *)
Lemma unique_ids_preserved db :
  NoDup (map ID (table db)) ->
  (forall r, NoDup (map ID (table (fst (Create r db)))))
  /\ (forall r, NoDup (map ID (table (fst (Update r db)))))
  /\ (forall id, NoDup (map ID (table (fst (Delete id db))))).
Proof.
  intros N. split; [|split].
  - intros r. rewrite Create_unfold. cbv zeta.
    destruct (refusal r); [exact N|].
    destruct (0 <? Price r); cbn [negb]; [|exact N].
    destruct (has_id (ID r) (table db)) eqn:H; [exact N|].
    cbn [fst table]. rewrite map_app. cbn [map].
    apply NoDup_app; [exact N | repeat constructor; intros [] |].
    intros x Hx [<-|[]].
    apply has_id_in in Hx. congruence.
  - intros r. rewrite Update_unfold. cbv zeta.
    destruct (refusal r); [exact N|].
    destruct (has_id (ID r) (table db)); [|exact N].
    destruct (0 <? Price r); [|exact N].
    cbn [fst table]. rewrite map_map.
    erewrite map_ext; [exact N|].
    intros x. cbv beta. destruct (same_id (ID r) x) eqn:E; [|reflexivity].
    symmetry. apply id_eqb_eq, E.
  - intros id. rewrite Delete_unfold. cbv zeta.
    destruct (has_id id (table db)); [|exact N].
    cbn [fst table]. revert N. generalize (table db) as rows.
    induction rows as [|x rows IH]; [intros; constructor|].
    cbn [map filter]. intros N. inversion N as [|? ? Hx N']. subst.
    destruct (negb (same_id id x)); [|apply IH, N'].
    cbn [map]. constructor; [|apply IH, N'].
    intros H. apply Hx. apply in_map_iff in H. destruct H as (y & Ey & Hy).
    apply filter_In in Hy. rewrite <- Ey. apply in_map, Hy.
Qed.

Lemma string_length_app a b : String.length (a ++ b) = (String.length a + String.length b)%nat.
Proof. induction a as [|c a IH]; cbn; [reflexivity|]. rewrite IH. reflexivity. Qed.

Lemma well_formed_month_length s : well_formed_month s = true -> String.length s = 7%nat.
Proof.
  destruct s as [|? [|? [|? [|? [|? [|? [|? [|? ?]]]]]]]]; try discriminate. reflexivity.
Qed.

(** C10. The month check of [GetTotalCost] accepts a string exactly when
    it is two digits making a month from 01 to 12, a hyphen and four digits,
    and nothing else.  So "1-2025", "00-2025", "01-25" and a well-formed
    month with characters added before or after it are rejected like
    "13-2025", and [GetTotalCost] answers each of them with the same
    validation error. *)
Theorem isValidMonthYear_accepts_exactly_MM_YYYY :
  (forall s, isValidMonthYear s = well_formed_month s)
  /\ (forall s, isValidMonthYear s = true <->
                exists m1 m2 y1 y2 y3 y4,
                  s = String m1 (String m2 (String "-"
                        (String y1 (String y2 (String y3 (String y4 ""))))))
                  /\ is_digit m1 = true /\ is_digit m2 = true
                  /\ 1 <= 10 * digit_value m1 + digit_value m2 <= 12
                  /\ is_digit y1 = true /\ is_digit y2 = true
                  /\ is_digit y3 = true /\ is_digit y4 = true)
  /\ map isValidMonthYear ["1-2025"; "00-2025"; "01-25"; "13-2025"; "2025-07"]
     = [false; false; false; false; false]
  /\ (forall before s after,
         isValidMonthYear s = true ->
         before ++ after <> "" ->
         isValidMonthYear (before ++ s ++ after) = false)
  /\ (forall db startMonth endMonth userID serviceName,
         isValidMonthYear startMonth = false \/ isValidMonthYear endMonth = false ->
         GetTotalCost startMonth endMonth userID serviceName db = (db, Err ErrInvalidMonth)).
Proof.
  split; [exact isValidMonthYear_spec|]. split; [|split; [reflexivity|split]].
  - intros s. rewrite isValidMonthYear_spec. split.
    + destruct s as [|m1 [|m2 [|h [|y1 [|y2 [|y3 [|y4 [|? ?]]]]]]]]; try discriminate.
      unfold well_formed_month. intros H.
      do 8 (apply andb_true_iff in H; destruct H as [H ?]).
      exists m1, m2, y1, y2, y3, y4.
      assert (h = "-"%char) as -> by (apply Ascii.eqb_eq; assumption).
      repeat split; try assumption; apply Z.leb_le; assumption.
    + intros (m1 & m2 & y1 & y2 & y3 & y4 & -> & D1 & D2 & [L U] & D3 & D4 & D5 & D6).
      unfold well_formed_month. rewrite D1, D2, D3, D4, D5, D6.
      apply Z.leb_le in L. apply Z.leb_le in U. rewrite L, U. reflexivity.
  - intros before s after H N. rewrite isValidMonthYear_spec in *.
    apply well_formed_month_length in H.
    apply not_true_is_false. intros W. apply well_formed_month_length in W.
    rewrite !string_length_app in W.
    destruct before; [destruct after; [exfalso; apply N; reflexivity|]|];
      cbn [String.length] in W; lia.
  - intros db s e u n H. unfold GetTotalCost.
    destruct H as [-> | ->]; [|rewrite orb_true_r]; reflexivity.
Qed.

Lemma isValidMonthYear_accepts_exactly_MM_YYYY_witness :
  isValidMonthYear "07-2025" = true
  /\ isValidMonthYear ("x" ++ "07-2025" ++ "") = false
  /\ isValidMonthYear ("" ++ "07-2025" ++ " ") = false
  /\ GetTotalCost "1-2025" "07-2025" None None Sample.db = (Sample.db, Err ErrInvalidMonth)
  /\ GetTotalCost "07-2025" "01-25" None None Sample.db = (Sample.db, Err ErrInvalidMonth).
Proof.
  destruct isValidMonthYear_accepts_exactly_MM_YYYY as (_ & _ & _ & X & G).
  split; [reflexivity|].
  split; [apply X; [reflexivity|discriminate]|].
  split; [apply X; [reflexivity|discriminate]|].
  split; [apply G; left; reflexivity|apply G; right; reflexivity].
Defined.

(** ** Further properties of the repository *)

Lemma same_id_refl r : same_id (ID r) r = true.
Proof. unfold same_id. apply id_eqb_eq. reflexivity. Qed.

Lemma filter_same_id_unique rows r :
  NoDup (map ID rows) -> In r rows -> filter (same_id (ID r)) rows = [r].
Proof.
  intros N I. destruct (split_unique_id _ _ N I) as (before & after & -> & F).
  rewrite map_app in F.
  assert (Fb : ~ In (ID r) (map ID before)) by (intros H; apply F, in_or_app; auto).
  assert (Fa : ~ In (ID r) (map ID after)) by (intros H; apply F, in_or_app; auto).
  rewrite filter_app. cbn [filter]. rewrite same_id_refl.
  rewrite (filter_none_same_id _ _ (has_id_false _ _ Fb)).
  rewrite (filter_none_same_id _ _ (has_id_false _ _ Fa)). reflexivity.
Qed.

Lemma has_id_iff id rows : has_id id rows = true <-> In id (map ID rows).
Proof. split; [apply has_id_true|apply has_id_in]. Qed.

(** X1. [Create] succeeds exactly when every value of the record fits its
    column (the price a 32-bit integer, the texts valid UTF-8 with no zero
    byte), the price is positive and no stored row has the id; then the
    record is added after the stored rows, and otherwise the table is left
    as it was. *)
Theorem Create_succeeds_exactly_when :
  forall r db,
    (snd (Create r db) = None
     <-> storable r = true /\ 0 < Price r /\ ~ In (ID r) (map ID (table db)))
    /\ (snd (Create r db) = None -> table (fst (Create r db)) = (table db ++ [r])%list)
    /\ (snd (Create r db) <> None -> table (fst (Create r db)) = table db).
Proof.
  intros r db. rewrite Create_unfold. cbv zeta.
  destruct (refusal r) as [e|] eqn:R.
  - cbn [fst snd table].
    split; [split; [discriminate|]|split; [discriminate|reflexivity]].
    intros (S & _). rewrite (refusal_storable _ S) in R. discriminate.
  - pose proof (storable_refusal _ R) as S.
    destruct (Z.ltb_spec 0 (Price r)) as [P|P]; cbn [negb].
    + destruct (has_id (ID r) (table db)) eqn:H; cbn [fst snd table].
      * apply has_id_true in H.
        split; [split; [discriminate|intros (_ & _ & N); contradiction]|].
        split; [discriminate|reflexivity].
      * split; [split; [intros _; split; [exact S|split; [exact P|]]|reflexivity]|].
        -- intros I. apply has_id_in in I. congruence.
        -- split; [reflexivity|intros N; contradiction].
    + cbn [fst snd table].
      split; [split; [discriminate|intros (_ & Q & _); lia]|].
      split; [discriminate|reflexivity].
Qed.

Lemma Create_succeeds_exactly_when_witness :
  (snd (Create Sample.C Sample.db) = None
   <-> storable Sample.C = true /\ 0 < Price Sample.C
       /\ ~ In (ID Sample.C) (map ID (table Sample.db)))
  /\ (snd (Create Sample.C Sample.db) = None ->
      table (fst (Create Sample.C Sample.db)) = (table Sample.db ++ [Sample.C])%list)
  /\ (snd (Create Unstorable.huge Sample.db) <> None ->
      table (fst (Create Unstorable.huge Sample.db)) = table Sample.db).
Proof.
  destruct (Create_succeeds_exactly_when Sample.C Sample.db) as (A & B & _).
  destruct (Create_succeeds_exactly_when Unstorable.huge Sample.db) as (_ & _ & C).
  split; [exact A|]. split; [exact B|exact C].
Defined.

(** X2. [Create] of a record whose values fit their columns, with a positive
    price, whose id a stored row already has fails with the unique-violation
    error of the primary key, and the table is left as it was. *)
Theorem Create_duplicate_id_rejected (r : Subscription) (db : DB) :
  storable r = true ->
  0 < Price r ->
  In (ID r) (map ID (table db)) ->
  snd (Create r db) = Some (ErrPq unique_violation)
  /\ table (fst (Create r db)) = table db.
Proof.
  intros S P I. rewrite Create_unfold. cbv zeta.
  rewrite (refusal_storable _ S).
  replace (0 <? Price r) with true by (symmetry; apply Z.ltb_lt, P).
  rewrite (has_id_in _ _ I). split; reflexivity.
Qed.

Lemma Create_duplicate_id_rejected_witness :
  snd (Create Sample.B' Sample.db) = Some (ErrPq unique_violation)
  /\ table (fst (Create Sample.B' Sample.db)) = table Sample.db.
Proof.
  apply Create_duplicate_id_rejected; [reflexivity|reflexivity|].
  cbn. right. left. reflexivity.
Defined.

(** X3. In a table with unique ids [GetByID] returns the stored row that
    has the id; it fails with [sql.ErrNoRows] exactly when no row has it. *)
Theorem GetByID_finds_the_stored_row :
  (forall db r,
      NoDup (map ID (table db)) -> In r (table db) ->
      snd (GetByID (ID r) db) = Ok r)
  /\ (forall db id,
         snd (GetByID id db) = Err ErrNoRows <-> ~ In id (map ID (table db))).
Proof.
  split.
  - intros db r N I. rewrite GetByID_unfold. cbn [snd].
    rewrite (filter_same_id_unique _ _ N I). reflexivity.
  - intros db id. rewrite GetByID_unfold. cbn [snd]. split.
    + intros H I. apply has_id_in in I. rewrite has_id_filter in I.
      destruct (filter (same_id id) (table db)); [discriminate|discriminate].
    + intros N. rewrite (filter_none_same_id _ _ (has_id_false _ _ N)). reflexivity.
Qed.

Lemma GetByID_finds_the_stored_row_witness :
  snd (GetByID (ID Sample.B) Sample.db) = Ok Sample.B
  /\ (snd (GetByID 9%N Sample.db) = Err ErrNoRows <-> ~ In 9%N (map ID (table Sample.db))).
Proof.
  split.
  - apply (proj1 GetByID_finds_the_stored_row).
    + cbn. constructor; [intros [H|[]]; discriminate|].
      constructor; [intros []|constructor].
    + cbn. auto.
  - apply (proj2 GetByID_finds_the_stored_row).
Defined.

(** X4. In a table with unique ids, [Delete] of the id of a stored row
    succeeds and takes out that row and no other: the rows before and after
    it stay, in their order, and [GetByID] no longer finds the id. *)
Theorem Delete_removes_the_row (db : DB) (r : Subscription) (before after : list Subscription) :
  NoDup (map ID (table db)) ->
  table db = (before ++ r :: after)%list ->
  snd (Delete (ID r) db) = None
  /\ table (fst (Delete (ID r) db)) = (before ++ after)%list
  /\ snd (GetByID (ID r) (fst (Delete (ID r) db))) = Err ErrNoRows.
Proof.
  intros N T. rewrite Delete_unfold. cbv zeta.
  assert (I : In r (table db)) by (rewrite T; apply in_elt).
  rewrite (has_id_in _ _ (in_map ID _ _ I)). cbn [fst snd table].
  rewrite T in N. rewrite map_app in N. cbn [map] in N.
  apply NoDup_remove_2 in N.
  assert (Fb : ~ In (ID r) (map ID before)) by (intros H; apply N, in_or_app; auto).
  assert (Fa : ~ In (ID r) (map ID after)) by (intros H; apply N, in_or_app; auto).
  assert (E : filter (fun x => negb (same_id (ID r) x)) (table db) = (before ++ after)%list).
  { rewrite T, filter_app. cbn [filter]. rewrite same_id_refl. cbn [negb].
    rewrite (filter_other_id _ _ (has_id_false _ _ Fb)).
    rewrite (filter_other_id _ _ (has_id_false _ _ Fa)). reflexivity. }
  split; [reflexivity|]. split; [exact E|].
  rewrite GetByID_unfold. cbn [snd table]. rewrite E.
  rewrite <- map_app in N.
  rewrite (filter_none_same_id _ _ (has_id_false _ _ N)). reflexivity.
Qed.

Lemma Delete_removes_the_row_witness :
  snd (Delete (ID Sample.A) Sample.db) = None
  /\ table (fst (Delete (ID Sample.A) Sample.db)) = ([] ++ [Sample.B])%list
  /\ snd (GetByID (ID Sample.A) (fst (Delete (ID Sample.A) Sample.db))) = Err ErrNoRows.
Proof.
  apply (Delete_removes_the_row Sample.db Sample.A [] [Sample.B]); [|reflexivity].
  cbn. constructor; [intros [H|[]]; discriminate|].
  constructor; [intros []|constructor].
Defined.

(** X5. [Delete] undoes [Create]: after a record whose values fit their
    columns, with a positive price and an id no stored row has, is created,
    deleting its id succeeds and the table is the one before the creation. *)
Theorem Create_then_Delete_restores (db : DB) (r : Subscription) :
  storable r = true ->
  0 < Price r ->
  ~ In (ID r) (map ID (table db)) ->
  snd (Create r db) = None
  /\ snd (Delete (ID r) (fst (Create r db))) = None
  /\ table (fst (Delete (ID r) (fst (Create r db)))) = table db.
Proof.
  intros S P F. rewrite Create_unfold. cbv zeta.
  rewrite (refusal_storable _ S).
  replace (0 <? Price r) with true by (symmetry; apply Z.ltb_lt, P).
  rewrite (has_id_false _ _ F). cbn [negb fst snd].
  rewrite Delete_unfold. cbv zeta. cbn [table].
  assert (H : has_id (ID r) (table db ++ [r]) = true).
  { apply has_id_in. rewrite map_app. apply in_or_app. right. left. reflexivity. }
  rewrite H. cbn [fst snd table].
  split; [reflexivity|]. split; [reflexivity|].
  rewrite filter_app. cbn [filter]. rewrite same_id_refl. cbn [negb].
  rewrite (filter_other_id _ _ (has_id_false _ _ F)). apply app_nil_r.
Qed.

Lemma Create_then_Delete_restores_witness :
  snd (Create Sample.C Sample.db) = None
  /\ snd (Delete (ID Sample.C) (fst (Create Sample.C Sample.db))) = None
  /\ table (fst (Delete (ID Sample.C) (fst (Create Sample.C Sample.db)))) = table Sample.db.
Proof.
  apply Create_then_Delete_restores; [reflexivity|reflexivity|].
  cbn. intros [H|[H|[]]]; discriminate.
Defined.

Lemma filter_same_id_replaced sub rows :
  has_id (ID sub) rows = true ->
  exists rest,
    filter (same_id (ID sub)) (map (fun r => if same_id (ID sub) r then sub else r) rows)
    = sub :: rest.
Proof.
  induction rows as [|x rows IH]; [discriminate|].
  cbn [has_id existsb map filter]. fold (has_id (ID sub) rows).
  fold (same_id (ID sub) x).
  destruct (same_id (ID sub) x) eqn:E; cbn [orb].
  - intros _. rewrite same_id_refl. eexists. reflexivity.
  - intros H. rewrite E. apply IH, H.
Qed.

(** X6. After a successful [Update] of a record, [GetByID] of its id
    returns that record. *)
Theorem Update_then_GetByID (db db' : DB) (s : Subscription) :
  Update s db = (db', None) ->
  snd (GetByID (ID s) db') = Ok s.
Proof.
  rewrite Update_unfold. cbv zeta.
  destruct (refusal s); [discriminate|].
  destruct (has_id (ID s) (table db)) eqn:H; [|discriminate].
  destruct (0 <? Price s); [|discriminate].
  intros E. inversion E. subst db'. clear E.
  rewrite GetByID_unfold. cbn [snd table].
  destruct (filter_same_id_replaced s _ H) as (rest & ->). reflexivity.
Qed.

Lemma Update_then_GetByID_witness :
  snd (GetByID (ID Sample.B') (fst (Update Sample.B' Sample.db))) = Ok Sample.B'.
Proof.
  apply (Update_then_GetByID Sample.db). reflexivity.
Defined.

Lemma map_replace_twice sub rows :
  map (fun r => if same_id (ID sub) r then sub else r)
      (map (fun r => if same_id (ID sub) r then sub else r) rows)
  = map (fun r => if same_id (ID sub) r then sub else r) rows.
Proof.
  rewrite map_map. apply map_ext. intros r.
  destruct (same_id (ID sub) r) eqn:E; [|rewrite E; reflexivity].
  rewrite same_id_refl. reflexivity.
Qed.

Lemma has_id_replaced sub rows :
  has_id (ID sub) (map (fun r => if same_id (ID sub) r then sub else r) rows)
  = has_id (ID sub) rows.
Proof.
  induction rows as [|x rows IH]; [reflexivity|].
  cbn [has_id existsb map]. fold (has_id (ID sub) rows).
  fold (has_id (ID sub) (map (fun r => if same_id (ID sub) r then sub else r) rows)).
  rewrite IH. f_equal.
  fold (same_id (ID sub) x). destruct (same_id (ID sub) x) eqn:E.
  - apply id_eqb_eq. reflexivity.
  - exact E.
Qed.

(** X7. [Update] is idempotent: when it has succeeded, the same [Update]
    again succeeds and leaves the table as the first one made it. *)
Theorem Update_idempotent (db db' : DB) (s : Subscription) :
  Update s db = (db', None) ->
  snd (Update s db') = None /\ table (fst (Update s db')) = table db'.
Proof.
  rewrite Update_unfold. cbv zeta.
  destruct (refusal s) eqn:R; [discriminate|].
  destruct (has_id (ID s) (table db)) eqn:H; [|discriminate].
  destruct (0 <? Price s) eqn:P; [|discriminate].
  intros E. inversion E. subst db'. clear E.
  rewrite Update_unfold. cbv zeta. cbn [table].
  rewrite R, has_id_replaced, H, P. cbn [fst snd table].
  split; [reflexivity|apply map_replace_twice].
Qed.

Lemma Update_idempotent_witness :
  snd (Update Sample.B' (fst (Update Sample.B' Sample.db))) = None
  /\ table (fst (Update Sample.B' (fst (Update Sample.B' Sample.db))))
     = table (fst (Update Sample.B' Sample.db)).
Proof.
  apply (Update_idempotent Sample.db). reflexivity.
Defined.

Lemma has_id_deleted id rows :
  has_id id (filter (fun r => negb (same_id id r)) rows) = false.
Proof.
  apply not_true_is_false. intros H. apply existsb_exists in H.
  destruct H as (x & Hx & E). apply filter_In in Hx. destruct Hx as [_ Hx].
  unfold same_id in Hx. rewrite E in Hx. discriminate.
Qed.

(** X8. [Delete] removes every row with the id: when it has succeeded, the
    same [Delete] again fails with the not-found error and changes
    nothing. *)
Theorem Delete_twice_not_found (db db' : DB) (id : UUID) :
  Delete id db = (db', None) ->
  snd (Delete id db') = Some (ErrNotFound id) /\ table (fst (Delete id db')) = table db'.
Proof.
  rewrite Delete_unfold. cbv zeta.
  destruct (has_id id (table db)); [|discriminate].
  intros E. inversion E. subst db'. clear E.
  rewrite Delete_unfold. cbv zeta. cbn [table].
  rewrite has_id_deleted. split; reflexivity.
Qed.

Lemma Delete_twice_not_found_witness :
  snd (Delete 1%N (fst (Delete 1%N Sample.db))) = Some (ErrNotFound 1%N)
  /\ table (fst (Delete 1%N (fst (Delete 1%N Sample.db)))) = table (fst (Delete 1%N Sample.db)).
Proof.
  apply (Delete_twice_not_found Sample.db). reflexivity.
Defined.

(** X9. [Update] succeeds exactly when every value of the record fits its
    column (the price a 32-bit integer, the texts valid UTF-8 with no zero
    byte), a stored row has the id and the new price is positive; [Delete]
    succeeds exactly when a stored row has the id. *)
Theorem Update_Delete_succeed_exactly_when :
  (forall s db,
      snd (Update s db) = None
      <-> storable s = true /\ In (ID s) (map ID (table db)) /\ 0 < Price s)
  /\ (forall id db,
         snd (Delete id db) = None <-> In id (map ID (table db))).
Proof.
  split.
  - intros s db. rewrite Update_unfold. cbv zeta. rewrite <- has_id_iff.
    destruct (refusal s) as [e|] eqn:R.
    + cbn [snd]. split; [discriminate|].
      intros (S & _). rewrite (refusal_storable _ S) in R. discriminate.
    + pose proof (storable_refusal _ R) as S.
      destruct (has_id (ID s) (table db)).
      * destruct (Z.ltb_spec 0 (Price s)); cbn [snd].
        -- split; [intros _; split; [exact S|split; [reflexivity|assumption]]|reflexivity].
        -- split; [discriminate|intros (_ & _ & Q); lia].
      * cbn [snd]. split; [discriminate|intros (_ & Q & _); discriminate].
  - intros id db. rewrite Delete_unfold. cbv zeta. rewrite <- has_id_iff.
    destruct (has_id id (table db)); cbn [snd].
    + split; reflexivity.
    + split; discriminate.
Qed.

Lemma Update_Delete_succeed_exactly_when_witness :
  (snd (Update Sample.B' Sample.db) = None
   <-> storable Sample.B' = true
       /\ In (ID Sample.B') (map ID (table Sample.db)) /\ 0 < Price Sample.B')
  /\ (snd (Delete 3%N Sample.db) = None <-> In 3%N (map ID (table Sample.db))).
Proof.
  split.
  - exact (proj1 Update_Delete_succeed_exactly_when Sample.B' Sample.db).
  - exact (proj2 Update_Delete_succeed_exactly_when 3%N Sample.db).
Defined.

Lemma table_after_call_read c db :
  match c with
  | CallGetByID _ | CallList _ _ | CallGetTotalCost _ _ _ _ => table (after_call c db) = table db
  | _ => True
  end.
Proof.
  destruct c; cbn [after_call]; trivial;
    [apply table_GetByID | apply table_List | apply table_GetTotalCost].
Qed.

Lemma well_formed_after_call c db :
  NoDup (map ID (table db)) /\ prices_positive db ->
  NoDup (map ID (table (after_call c db))) /\ prices_positive (after_call c db).
Proof.
  intros [N P]. destruct (unique_ids_preserved db N) as (NC & NU & ND).
  pose proof (table_after_call_read c db) as R. unfold prices_positive in *.
  destruct c; cbn [after_call] in *; try (rewrite R; split; assumption).
  - split; [apply NC|apply prices_positive_Create, P].
  - split; [apply NU|apply prices_positive_Update, P].
  - split; [apply ND|apply prices_positive_Delete, P].
Qed.

(** X10. Whatever calls are made on the repository, in whatever order and
    whether they succeed or fail, a table that started empty holds rows with
    pairwise different ids and positive prices. *)
Theorem tables_reached_are_well_formed :
  forall (calls : list call) (log : list (string * list value)),
    NoDup (map ID (table (after_calls calls (mkDB [] log))))
    /\ prices_positive (after_calls calls (mkDB [] log)).
Proof.
  intros calls log. unfold after_calls.
  assert (H : NoDup (map ID (table (mkDB [] log))) /\ prices_positive (mkDB [] log))
    by (split; constructor).
  revert H. generalize (mkDB [] log) as db.
  induction calls as [|c calls IH]; intros db H; [exact H|].
  cbn [fold_left]. apply IH, well_formed_after_call, H.
Qed.














(** *** The order of the stored months *)

Lemma ascii_compare_byte a b : Ascii.compare a b = (byte a ?= byte b).
Proof.
  unfold Ascii.compare, byte, nat_of_ascii.
  rewrite !N_nat_Z, N2Z.inj_compare. reflexivity.
Qed.

Lemma ascii_compare_digit a b :
  Ascii.compare a b = (digit_value a ?= digit_value b).
Proof.
  rewrite ascii_compare_byte. unfold digit_value.
  destruct (Z.compare_spec (byte a) (byte b)); symmetry;
    [apply Z.compare_eq_iff | apply Z.compare_lt_iff | apply Z.compare_gt_iff]; lia.
Qed.

Lemma Parse_well_formed m1 m2 h y1 y2 y3 y4 :
  well_formed_month
    (String m1 (String m2 (String h (String y1 (String y2 (String y3 (String y4 "")))))))
  = true ->
  Parse_01_2006
    (String m1 (String m2 (String h (String y1 (String y2 (String y3 (String y4 "")))))))
  = Some (digit_value m1 * 10 + digit_value m2,
          ((digit_value y1 * 10 + digit_value y2) * 10 + digit_value y3) * 10
          + digit_value y4)
  /\ h = "-"%char
  /\ 0 <= digit_value m1 <= 9 /\ 0 <= digit_value m2 <= 9
  /\ 0 <= digit_value y1 <= 9 /\ 0 <= digit_value y2 <= 9
  /\ 0 <= digit_value y3 <= 9 /\ 0 <= digit_value y4 <= 9.
Proof.
  unfold well_formed_month. intros H.
  apply andb_true_iff in H; destruct H as [H Dy4].
  apply andb_true_iff in H; destruct H as [H Dy3].
  apply andb_true_iff in H; destruct H as [H Dy2].
  apply andb_true_iff in H; destruct H as [H Dy1].
  apply andb_true_iff in H; destruct H as [H Hh].
  apply andb_true_iff in H; destruct H as [H U].
  apply andb_true_iff in H; destruct H as [H L].
  apply andb_true_iff in H; destruct H as [Dm1 Dm2].
  apply Ascii.eqb_eq in Hh. subst h.
  apply Z.leb_le in L. apply Z.leb_le in U.
  pose proof (proj2 (is_digit_value _ Dm1)). pose proof (proj2 (is_digit_value _ Dm2)).
  pose proof (proj2 (is_digit_value _ Dy1)). pose proof (proj2 (is_digit_value _ Dy2)).
  pose proof (proj2 (is_digit_value _ Dy3)). pose proof (proj2 (is_digit_value _ Dy4)).
  split; [|repeat split; lia].
  rewrite Parse_unfold, getnum_fixed_2, Dm1, Dm2. cbn [andb].
  replace (digit_value m1 * 10 + digit_value m2 <=? 0) with false
    by (symmetry; apply Z.leb_gt; lia).
  replace (12 <? digit_value m1 * 10 + digit_value m2) with false
    by (symmetry; apply Z.ltb_ge; lia).
  cbn [orb]. rewrite skip_hyphen.
  replace (Ascii.eqb "-" "-") with true by reflexivity.
  unfold year_and_end.
  replace (len (String y1 (String y2 (String y3 (String y4 "")))) <? 4) with false
    by reflexivity.
  rewrite isDigit_0, Dy1. cbn [orb negb upto from].
  rewrite atoi_4 by assumption. rewrite Dy2, Dy3, Dy4. cbn [andb].
  rewrite skip_empty, len_nil. cbn [Z.eqb negb].
  change (1 <? 1) with false. cbn [orb].
  match goal with |- context [daysIn ?m ?y <? 1] =>
    replace (daysIn m y <? 1) with false
      by (symmetry; apply Z.ltb_ge; pose proof (daysIn_pos m y); lia) end.
  reflexivity.
Qed.

Lemma month_first (ma ya mb yb : Z) (c : comparison) :
  c = match ma ?= mb with Eq => ya ?= yb | o => o end ->
  ((match c with Gt => false | _ => true end) = true
   <-> ma < mb \/ (ma = mb /\ ya <= yb)).
Proof.
  intros ->.
  destruct (Z.compare_spec ma mb); [destruct (Z.compare_spec ya yb)| |];
    split; try discriminate; try reflexivity; intros; lia.
Qed.

Lemma compare_well_formed a1 a2 a3 a4 a5 a6 b1 b2 b3 b4 b5 b6 :
  0 <= digit_value a1 <= 9 -> 0 <= digit_value a2 <= 9 ->
  0 <= digit_value a3 <= 9 -> 0 <= digit_value a4 <= 9 ->
  0 <= digit_value a5 <= 9 -> 0 <= digit_value a6 <= 9 ->
  0 <= digit_value b1 <= 9 -> 0 <= digit_value b2 <= 9 ->
  0 <= digit_value b3 <= 9 -> 0 <= digit_value b4 <= 9 ->
  0 <= digit_value b5 <= 9 -> 0 <= digit_value b6 <= 9 ->
  String.compare
    (String a1 (String a2 (String "-" (String a3 (String a4 (String a5 (String a6 "")))))))
    (String b1 (String b2 (String "-" (String b3 (String b4 (String b5 (String b6 "")))))))
  = match digit_value a1 * 10 + digit_value a2 ?= digit_value b1 * 10 + digit_value b2 with
    | Eq => ((digit_value a3 * 10 + digit_value a4) * 10 + digit_value a5) * 10 + digit_value a6
            ?= ((digit_value b3 * 10 + digit_value b4) * 10 + digit_value b5) * 10
               + digit_value b6
    | o => o
    end.
Proof.
  intros. cbn [String.compare].
  replace (Ascii.compare "-" "-") with Eq by reflexivity.
  rewrite !ascii_compare_digit.
  set (ma := digit_value a1 * 10 + digit_value a2).
  set (mb := digit_value b1 * 10 + digit_value b2).
  set (ya := ((digit_value a3 * 10 + digit_value a4) * 10 + digit_value a5) * 10
             + digit_value a6).
  set (yb := ((digit_value b3 * 10 + digit_value b4) * 10 + digit_value b5) * 10
             + digit_value b6).
  assert (R : forall c,
             (c = Lt -> ma < mb \/ (ma = mb /\ ya < yb)) ->
             (c = Gt -> mb < ma \/ (ma = mb /\ yb < ya)) ->
             (c = Eq -> ma = mb /\ ya = yb) ->
             c = match ma ?= mb with Eq => ya ?= yb | o => o end).
  { intros c HL HG HE.
    destruct (Z.compare_spec ma mb); [destruct (Z.compare_spec ya yb)| |];
      destruct c; try reflexivity;
      try (specialize (HL eq_refl)); try (specialize (HG eq_refl));
      try (specialize (HE eq_refl)); lia. }
  apply R; subst ma mb ya yb;
    destruct (Z.compare_spec (digit_value a1) (digit_value b1)); try discriminate;
    destruct (Z.compare_spec (digit_value a2) (digit_value b2)); try discriminate;
    destruct (Z.compare_spec (digit_value a3) (digit_value b3)); try discriminate;
    destruct (Z.compare_spec (digit_value a4) (digit_value b4)); try discriminate;
    destruct (Z.compare_spec (digit_value a5) (digit_value b5)); try discriminate;
    destruct (Z.compare_spec (digit_value a6) (digit_value b6)); try discriminate;
    intros _; lia.
Qed.

Lemma Parse_shape a ma ya :
  Parse_01_2006 a = Some (ma, ya) ->
  exists a1 a2 a3 a4 a5 a6,
    a = String a1 (String a2 (String "-" (String a3 (String a4 (String a5 (String a6 ""))))))
    /\ ma = digit_value a1 * 10 + digit_value a2
    /\ ya = ((digit_value a3 * 10 + digit_value a4) * 10 + digit_value a5) * 10
            + digit_value a6
    /\ 0 <= digit_value a1 <= 9 /\ 0 <= digit_value a2 <= 9
    /\ 0 <= digit_value a3 <= 9 /\ 0 <= digit_value a4 <= 9
    /\ 0 <= digit_value a5 <= 9 /\ 0 <= digit_value a6 <= 9.
Proof.
  intros P.
  assert (W : well_formed_month a = true).
  { rewrite <- isValidMonthYear_spec. unfold isValidMonthYear. rewrite P. reflexivity. }
  destruct a as [|a1 [|a2 [|h [|a3 [|a4 [|a5 [|a6 [|? ?]]]]]]]]; try discriminate.
  destruct (Parse_well_formed _ _ _ _ _ _ _ W) as (E & -> & B).
  rewrite E in P. inversion P.
  exists a1, a2, a3, a4, a5, a6. split; [reflexivity|]. split; [reflexivity|].
  split; [reflexivity|exact B].
Qed.

Lemma compare_parsed (a b : string) (ma ya mb yb : Z) :
  Parse_01_2006 a = Some (ma, ya) ->
  Parse_01_2006 b = Some (mb, yb) ->
  String.compare a b = match ma ?= mb with Eq => ya ?= yb | o => o end.
Proof.
  intros Pa Pb.
  destruct (Parse_shape _ _ _ Pa) as (a1 & a2 & a3 & a4 & a5 & a6 & -> & -> & -> & A).
  destruct (Parse_shape _ _ _ Pb) as (b1 & b2 & b3 & b4 & b5 & b6 & -> & -> & -> & B).
  apply compare_well_formed; tauto.
Qed.

(** X15. The stored month strings are ordered by month first and by year
    only inside one month: for two strings that [time.Parse] reads as
    (month, year) pairs, the first is below or equal to the second as a
    string exactly when its month is smaller, or the months are equal and
    its year is not greater. *)
Theorem month_strings_compare_month_first (a b : string) (ma ya mb yb : Z) :
  Parse_01_2006 a = Some (ma, ya) ->
  Parse_01_2006 b = Some (mb, yb) ->
  (String.leb a b = true <-> ma < mb \/ (ma = mb /\ ya <= yb)).
Proof.
  intros Pa Pb. unfold String.leb.
  apply month_first, compare_parsed; assumption.
Qed.

Lemma month_strings_compare_month_first_witness :
  (String.leb "01-2026" "12-2025" = true <-> 1 < 12 \/ (1 = 12 /\ 2026 <= 2025))
  /\ (String.leb "12-2024" "01-2025" = true <-> 12 < 1 \/ (12 = 1 /\ 2024 <= 2025)).
Proof.
  split.
  - exact (month_strings_compare_month_first "01-2026" "12-2025" 1 2026 12 2025
                                               eq_refl eq_refl).
  - exact (month_strings_compare_month_first "12-2024" "01-2025" 12 2024 1 2025
                                               eq_refl eq_refl).
Defined.

(** X16. Whether [GetTotalCost] counts an open-ended subscription depends
    on the months before the years: such a row adds its price to the total
    of a range exactly when the month of its start_date is below the month
    of endMonth, or the months are equal and its year is not after the year
    of endMonth.  A subscription that starts in a later year is counted when
    its month number is smaller, and one that started in an earlier year is
    left out when its month number is greater. *)
Theorem GetTotalCost_decides_by_month_before_year
        (before after : list Subscription) (log : list (string * list value))
        (r : Subscription) (startMonth endMonth : string) (mr yr me ye : Z) :
  EndDate r = None ->
  Parse_01_2006 (StartDate r) = Some (mr, yr) ->
  Parse_01_2006 endMonth = Some (me, ye) ->
  isValidMonthYear startMonth = true ->
  exists total,
    snd (GetTotalCost startMonth endMonth None None (mkDB (before ++ after) log)) = Ok total
    /\ snd (GetTotalCost startMonth endMonth None None (mkDB (before ++ r :: after) log))
       = Ok (total + if (mr <? me) || ((mr =? me) && (yr <=? ye)) then Price r else 0).
Proof.
  intros Hend Pr Pe Hs.
  assert (He : isValidMonthYear endMonth = true)
    by (unfold isValidMonthYear; rewrite Pe; reflexivity).
  rewrite !GetTotalCost_valid by assumption. cbn [snd table].
  eexists. split; [reflexivity|]. f_equal.
  rewrite total_price_filter_insert. f_equal.
  unfold overlaps, passes. rewrite Hend. cbn [andb]. rewrite andb_true_r.
  pose proof (month_first _ _ _ _ _ (compare_parsed _ _ _ _ _ _ Pr Pe)) as M.
  fold (String.leb (StartDate r) endMonth) in M.
  destruct (String.leb (StartDate r) endMonth).
  - destruct (proj1 M eq_refl) as [L|[E L]].
    + replace (mr <? me) with true by (symmetry; apply Z.ltb_lt, L). reflexivity.
    + replace (mr =? me) with true by (symmetry; apply Z.eqb_eq, E).
      replace (yr <=? ye) with true by (symmetry; apply Z.leb_le, L).
      rewrite orb_true_r. reflexivity.
  - destruct (Z.ltb_spec mr me) as [L|L]; cbn [orb].
    + assert (false = true) by (apply M; left; exact L). discriminate.
    + destruct (Z.eqb_spec mr me) as [E|E]; cbn [andb]; [|reflexivity].
      destruct (Z.leb_spec yr ye) as [Y|Y]; [|reflexivity].
      assert (false = true) by (apply M; right; split; assumption). discriminate.
Qed.

Lemma GetTotalCost_decides_by_month_before_year_witness :
  exists total,
    snd (GetTotalCost "01-2024" "08-2024" None None (mkDB ([Sample.B] ++ []) [])) = Ok total
    /\ snd (GetTotalCost "01-2024" "08-2024" None None (mkDB ([Sample.B] ++ Sample.A :: []) []))
       = Ok (total + if (7 <? 8) || ((7 =? 8) && (2025 <=? 2024)) then Price Sample.A else 0).
Proof.
  exact (GetTotalCost_decides_by_month_before_year
           [Sample.B] [] [] Sample.A "01-2024" "08-2024" 7 2025 8 2024
           eq_refl eq_refl eq_refl eq_refl).
Defined.




Example List_month_before_year_sample :
  snd (List None None (mkDB [Sample.B; mkSubscription 6%N "Ivi" 300 7%N "12-2024" None] []))
  = Ok [mkSubscription 6%N "Ivi" 300 7%N "12-2024" None; Sample.B].
Proof. reflexivity. Qed.

(** ** Properties of the handlers *)

Lemma Create_fresh sub db :
  storable sub = true -> 0 < Price sub -> ~ In (ID sub) (map ID (table db)) ->
  Create sub db
  = (mkDB (table db ++ [sub]) (issued db ++ [(Create_query, Create_args sub)]), None).
Proof.
  intros S P F. rewrite Create_unfold. cbv zeta. rewrite (refusal_storable _ S).
  replace (0 <? Price sub) with true by (symmetry; apply Z.ltb_lt, P).
  rewrite (has_id_false _ _ F). reflexivity.
Qed.

(** X18. [CreateSubscription] answers 400 Bad Request exactly when the
    request body does not pass the checks (it does not decode, the service
    name is empty, the price is not positive, the user id does not parse or
    the start date is not a valid month), and then the store is not
    accessed: no statement is sent. *)
Theorem CreateSubscription_bad_request :
  forall (uuid_Parse : string -> option UUID) (body : option Handler.createInput)
         (newID : UUID) (db : DB),
    ((exists msg, snd (Handler.CreateSubscription uuid_Parse body newID db)
                  = Handler.Error msg Handler.StatusBadRequest)
     <-> accepted uuid_Parse body newID = None)
    /\ (accepted uuid_Parse body newID = None ->
        fst (Handler.CreateSubscription uuid_Parse body newID db) = db).
Proof.
  intros parse body newID db. unfold Handler.CreateSubscription, accepted.
  destruct body as [input|]; [|split; [split; [reflexivity|eexists; reflexivity]|reflexivity]].
  destruct (String.eqb (Handler.in_ServiceName input) ""); cbn [negb andb];
    [split; [split; [reflexivity|eexists; reflexivity]|reflexivity]|].
  rewrite Z.leb_antisym.
  destruct (0 <? Handler.in_Price input) eqn:P; cbn [negb andb];
    [|split; [split; [reflexivity|eexists; reflexivity]|reflexivity]].
  destruct (parse (Handler.in_UserID input)) as [userID|];
    [|destruct (isValidMonthYear _);
      (split; [split; [reflexivity|eexists; reflexivity]|reflexivity])].
  destruct (isValidMonthYear (Handler.in_StartDate input)); cbn [negb];
    [|split; [split; [reflexivity|eexists; reflexivity]|reflexivity]].
  split; [|discriminate]. split; [|discriminate].
  intros [msg H]. exfalso. revert H.
  destruct (Create _ db) as [db1 [e|]]; cbn [snd]; [discriminate|].
  destruct (GetByID _ db1) as [db2 [s|e]]; discriminate.
Qed.

Lemma CreateSubscription_bad_request_witness :
  ((exists msg, snd (Handler.CreateSubscription Request.parse (Some Sample.input) 9%N Sample.db)
                = Handler.Error msg Handler.StatusBadRequest)
   <-> accepted Request.parse (Some Sample.input) 9%N = None)
  /\ (accepted Request.parse (Some Sample.input) 9%N = None ->
      fst (Handler.CreateSubscription Request.parse (Some Sample.input) 9%N Sample.db)
      = Sample.db).
Proof.
  exact (CreateSubscription_bad_request Request.parse (Some Sample.input) 9%N Sample.db).
Defined.

(** X19. When the request body passes the checks and every value of the
    record built from it fits its column (the price a 32-bit integer, the
    texts valid UTF-8 with no zero byte), [CreateSubscription] with a new id
    that no stored row has answers 201 Created with exactly that record, and
    the table has the record added.  With an id that is already stored, or
    with a value that does not fit its column, it answers 500 and the table
    is unchanged. *)
Theorem CreateSubscription_created
        (uuid_Parse : string -> option UUID) (body : option Handler.createInput)
        (newID : UUID) (db : DB) (sub : Subscription) :
  accepted uuid_Parse body newID = Some sub ->
  (storable sub = true ->
   ~ In newID (map ID (table db)) ->
   snd (Handler.CreateSubscription uuid_Parse body newID db)
   = Handler.JSON Handler.StatusCreated sub
   /\ table (fst (Handler.CreateSubscription uuid_Parse body newID db))
      = (table db ++ [sub])%list)
  /\ (storable sub = false \/ In newID (map ID (table db)) ->
      (exists msg, snd (Handler.CreateSubscription uuid_Parse body newID db)
                   = Handler.Error msg Handler.StatusInternalServerError)
      /\ table (fst (Handler.CreateSubscription uuid_Parse body newID db)) = table db).
Proof.
  unfold accepted, Handler.CreateSubscription.
  destruct body as [input|]; [|discriminate].
  destruct (String.eqb (Handler.in_ServiceName input) ""); cbn [negb andb]; [discriminate|].
  rewrite Z.leb_antisym.
  destruct (0 <? Handler.in_Price input) eqn:P; cbn [negb andb]; [|discriminate].
  destruct (isValidMonthYear (Handler.in_StartDate input)); [|discriminate].
  destruct (uuid_Parse (Handler.in_UserID input)) as [userID|]; [|discriminate].
  intros E. inversion E as [E']. clear E. cbn [negb].
  set (s := mkSubscription _ _ _ _ _ _).
  assert (Ps : 0 < Price s) by (apply Z.ltb_lt; exact P).
  change newID with (ID s). split.
  - intros S F. rewrite (Create_fresh s db S Ps F).
    rewrite GetByID_unfold. cbn [table].
    rewrite (filter_same_id_app _ _ _ F eq_refl). split; reflexivity.
  - intros H. rewrite Create_unfold. cbv zeta.
    destruct (refusal s) as [e|] eqn:R; [split; [eexists; reflexivity|reflexivity]|].
    destruct H as [S|I]; [rewrite (storable_refusal _ R) in S; discriminate|].
    replace (0 <? Price s) with true by (symmetry; apply Z.ltb_lt, Ps).
    rewrite (has_id_in _ _ I). split; [eexists; reflexivity|reflexivity].
Qed.

Lemma CreateSubscription_created_witness :
  (snd (Handler.CreateSubscription Request.parse (Some Request.okko) 9%N Sample.db)
   = Handler.JSON Handler.StatusCreated (Request.okko_row 9%N)
   /\ table (fst (Handler.CreateSubscription Request.parse (Some Request.okko) 9%N Sample.db))
      = (table Sample.db ++ [Request.okko_row 9%N])%list)
  /\ ((exists msg, snd (Handler.CreateSubscription Request.parse (Some Unstorable.request) 9%N
                                                   Sample.db)
                   = Handler.Error msg Handler.StatusInternalServerError)
      /\ table (fst (Handler.CreateSubscription Request.parse (Some Unstorable.request) 9%N
                                                Sample.db))
         = table Sample.db).
Proof.
  split.
  - apply (proj1 (CreateSubscription_created Request.parse (Some Request.okko) 9%N Sample.db
                                             (Request.okko_row 9%N) eq_refl)).
    + reflexivity.
    + cbn. intros [H|[H|[]]]; discriminate.
  - apply (proj2 (CreateSubscription_created Request.parse (Some Unstorable.request) 9%N
                                             Sample.db (Unstorable.request_row 9%N) eq_refl)).
    left. reflexivity.
Defined.

Example CreateSubscription_sample :
  snd (Handler.CreateSubscription Request.parse (Some Request.okko) 9%N Sample.db)
  = Handler.JSON 201 (Request.okko_row 9%N)
  /\ snd (Handler.CreateSubscription Request.parse (Some Request.okko) 1%N Sample.db)
     = Handler.Error "Не удалось сохранить подписку" 500.
Proof. split; reflexivity. Qed.

Lemma is_not_found_same id : Endpoints.is_not_found (ErrNotFound id) id = true.
Proof. apply N.eqb_refl. Qed.

(** X20. [UpdateSubscription] answers 400 Bad Request exactly when the id
    in the path does not parse or the body does not pass the checks, and
    then the store is not accessed.  With an id that parses and a body that
    passes, whose values all fit their columns (the price a 32-bit integer,
    the texts valid UTF-8 with no zero byte): if a stored row has the id it
    answers 200 with the record built from the body and that id, which is
    then what the table holds in place of the row; if no row has the id it
    answers 404 and the table is unchanged.  With a value that does not fit
    its column it answers 500 and the table is unchanged. *)
Theorem UpdateSubscription_replies :
  forall (uuid_Parse : string -> option UUID) (idStr : string)
         (body : option Handler.createInput) (db : DB),
    let res := Endpoints.UpdateSubscription uuid_Parse idStr body db in
    match uuid_Parse idStr with
    | None => fst res = db /\ Endpoints.status_of (snd res) = 400
    | Some id =>
        match accepted uuid_Parse body id with
        | None => fst res = db /\ Endpoints.status_of (snd res) = 400
        | Some sub =>
            (storable sub = true ->
             In id (map ID (table db)) ->
             snd res = Endpoints.SendJSON 200 (Endpoints.OneSubscription sub)
             /\ table (fst res)
                = map (fun r => if N.eqb (ID r) id then sub else r) (table db))
            /\ (storable sub = true ->
                ~ In id (map ID (table db)) ->
                Endpoints.status_of (snd res) = 404 /\ table (fst res) = table db)
            /\ (storable sub = false ->
                Endpoints.status_of (snd res) = 500 /\ table (fst res) = table db)
        end
    end.
Proof.
  intros parse idStr body db res. subst res. unfold Endpoints.UpdateSubscription.
  destruct (parse idStr) as [id|]; [|split; reflexivity].
  unfold accepted. destruct body as [input|]; [|split; reflexivity].
  destruct (String.eqb (Handler.in_ServiceName input) ""); cbn [negb andb];
    [split; reflexivity|].
  rewrite Z.leb_antisym.
  destruct (0 <? Handler.in_Price input) eqn:P; cbn [negb andb]; [|split; reflexivity].
  destruct (parse (Handler.in_UserID input)) as [userID|];
    [|destruct (isValidMonthYear _); split; reflexivity].
  destruct (isValidMonthYear (Handler.in_StartDate input)); cbn [negb];
    [|split; reflexivity].
  set (s := mkSubscription _ _ _ _ _ _).
  rewrite Update_unfold. cbv zeta.
  change (Price s) with (Handler.in_Price input). change (ID s) with id.
  rewrite P. split; [|split].
  - intros S I. rewrite (refusal_storable _ S).
    pose proof (has_id_in _ _ I) as H. rewrite H.
    rewrite GetByID_unfold. cbn [table fst snd].
    destruct (filter_same_id_replaced s (table db) H) as (rest & E).
    change (ID s) with id in E. rewrite E. split; reflexivity.
  - intros S F. rewrite (refusal_storable _ S). rewrite (has_id_false _ _ F).
    rewrite is_not_found_same. split; reflexivity.
  - intros S. destruct (refusal_not_storable _ S) as (e & -> & _). split; reflexivity.
Qed.

Lemma UpdateSubscription_replies_witness :
  (snd (Endpoints.UpdateSubscription Request.parse "2" (Some Request.okko) Sample.db)
   = Endpoints.SendJSON 200 (Endpoints.OneSubscription (Request.okko_row 2%N))
   /\ table (fst (Endpoints.UpdateSubscription Request.parse "2" (Some Request.okko) Sample.db))
      = map (fun r => if N.eqb (ID r) 2%N then Request.okko_row 2%N else r) (table Sample.db))
  /\ (Endpoints.status_of
        (snd (Endpoints.UpdateSubscription Request.parse "3" (Some Request.okko) Sample.db))
      = 404
      /\ table (fst (Endpoints.UpdateSubscription Request.parse "3" (Some Request.okko)
                                                  Sample.db))
         = table Sample.db)
  /\ (Endpoints.status_of
        (snd (Endpoints.UpdateSubscription Request.parse "2" (Some Unstorable.request) Sample.db))
      = 500
      /\ table (fst (Endpoints.UpdateSubscription Request.parse "2" (Some Unstorable.request)
                                                  Sample.db))
         = table Sample.db).
Proof.
  split; [|split].
  - apply (proj1 (UpdateSubscription_replies Request.parse "2" (Some Request.okko) Sample.db)).
    + reflexivity.
    + cbn. right. left. reflexivity.
  - apply (proj1 (proj2 (UpdateSubscription_replies Request.parse "3" (Some Request.okko)
                                                    Sample.db))).
    + reflexivity.
    + cbn. intros [H|[H|[]]]; discriminate.
  - apply (proj2 (proj2 (UpdateSubscription_replies Request.parse "2" (Some Unstorable.request)
                                                    Sample.db))).
    reflexivity.
Defined.

Example UpdateSubscription_sample :
  Endpoints.status_of
    (snd (Endpoints.UpdateSubscription Request.parse "3" (Some Request.okko) Sample.db)) = 404
  /\ Endpoints.status_of
       (snd (Endpoints.UpdateSubscription Request.parse "x" (Some Request.okko) Sample.db)) = 400
  /\ Endpoints.status_of
       (snd (Endpoints.UpdateSubscription Request.parse "2" (Some Sample.input) Sample.db)) = 400.
Proof. repeat split. Qed.

(** X21. [DeleteSubscription] answers 400 when the id in the path does not
    parse, and the store is not accessed; 204 No Content when a stored row
    has the id, and the table then holds the other rows only; 404 when no
    row has the id, and the table is unchanged. *)
Theorem DeleteSubscription_replies :
  forall (uuid_Parse : string -> option UUID) (idStr : string) (db : DB),
    let res := Endpoints.DeleteSubscription uuid_Parse idStr db in
    match uuid_Parse idStr with
    | None => fst res = db /\ Endpoints.status_of (snd res) = 400
    | Some id =>
        (In id (map ID (table db)) ->
         snd res = Endpoints.WriteHeader 204
         /\ table (fst res) = filter (fun r => negb (N.eqb (ID r) id)) (table db)
         /\ ~ In id (map ID (table (fst res))))
        /\ (~ In id (map ID (table db)) ->
            Endpoints.status_of (snd res) = 404 /\ table (fst res) = table db)
    end.
Proof.
  intros parse idStr db res. subst res. unfold Endpoints.DeleteSubscription.
  destruct (parse idStr) as [id|]; [|split; reflexivity].
  rewrite Delete_unfold. cbv zeta. split.
  - intros I. rewrite (has_id_in _ _ I). cbn [fst snd table].
    split; [reflexivity|]. split; [reflexivity|].
    intros H. apply has_id_in in H. rewrite has_id_deleted in H. discriminate.
  - intros F. rewrite (has_id_false _ _ F). rewrite is_not_found_same. split; reflexivity.
Qed.

Lemma DeleteSubscription_replies_witness :
  (In 1%N (map ID (table Sample.db)) ->
   snd (Endpoints.DeleteSubscription Request.parse "1" Sample.db) = Endpoints.WriteHeader 204
   /\ table (fst (Endpoints.DeleteSubscription Request.parse "1" Sample.db))
      = filter (fun r => negb (N.eqb (ID r) 1%N)) (table Sample.db)
   /\ ~ In 1%N (map ID (table (fst (Endpoints.DeleteSubscription Request.parse "1" Sample.db)))))
  /\ (~ In 1%N (map ID (table Sample.db)) ->
      Endpoints.status_of (snd (Endpoints.DeleteSubscription Request.parse "1" Sample.db)) = 404
      /\ table (fst (Endpoints.DeleteSubscription Request.parse "1" Sample.db))
         = table Sample.db).
Proof.
  exact (DeleteSubscription_replies Request.parse "1" Sample.db).
Defined.

(** X22. [GetSubscriptionByID] never changes the table.  It answers 400
    when the id in the path does not parse, without accessing the store;
    404 exactly when the id parses and no stored row has it; and, in a table
    with unique ids, 200 with the stored row for the id of a stored row. *)
Theorem GetSubscriptionByID_replies :
  forall (uuid_Parse : string -> option UUID) (idStr : string) (db : DB),
    let res := Endpoints.GetSubscriptionByID uuid_Parse idStr db in
    table (fst res) = table db
    /\ match uuid_Parse idStr with
       | None => fst res = db /\ Endpoints.status_of (snd res) = 400
       | Some id =>
           (Endpoints.status_of (snd res) = 404 <-> ~ In id (map ID (table db)))
           /\ (forall r, NoDup (map ID (table db)) -> In r (table db) -> ID r = id ->
                         snd res = Endpoints.SendJSON 200 (Endpoints.OneSubscription r))
       end.
Proof.
  intros parse idStr db res. subst res. unfold Endpoints.GetSubscriptionByID.
  destruct (parse idStr) as [id|]; [|split; [reflexivity|split; reflexivity]].
  rewrite GetByID_unfold. split; [destruct (filter _ _); reflexivity|]. split.
  - split.
    + intros H I. apply has_id_in in I. rewrite has_id_filter in I.
      destruct (filter (same_id id) (table db)); discriminate.
    + intros F. rewrite (filter_none_same_id _ _ (has_id_false _ _ F)). reflexivity.
  - intros r N I <-. rewrite (filter_same_id_unique _ _ N I). reflexivity.
Qed.

Lemma GetSubscriptionByID_replies_witness :
  table (fst (Endpoints.GetSubscriptionByID Request.parse "2" Sample.db)) = table Sample.db
  /\ (Endpoints.status_of (snd (Endpoints.GetSubscriptionByID Request.parse "2" Sample.db)) = 404
      <-> ~ In 2%N (map ID (table Sample.db)))
  /\ (forall r, NoDup (map ID (table Sample.db)) -> In r (table Sample.db) -> ID r = 2%N ->
                snd (Endpoints.GetSubscriptionByID Request.parse "2" Sample.db)
                = Endpoints.SendJSON 200 (Endpoints.OneSubscription r)).
Proof.
  exact (GetSubscriptionByID_replies Request.parse "2" Sample.db).
Defined.

Example GetSubscriptionByID_sample :
  snd (Endpoints.GetSubscriptionByID Request.parse "2" Sample.db)
  = Endpoints.SendJSON 200 (Endpoints.OneSubscription Sample.B)
  /\ Endpoints.status_of (snd (Endpoints.GetSubscriptionByID Request.parse "3" Sample.db)) = 404
  /\ Endpoints.status_of (snd (Endpoints.GetSubscriptionByID Request.parse "zz" Sample.db)) = 400.
Proof. repeat split. Qed.

(** X23. [ListSubscriptions] never changes the table.  A user_id
    parameter that is not empty and does not parse gives 400 without access
    to the store.  Otherwise, with a service_name parameter that is valid
    text for the store (valid UTF-8 with no zero byte), the answer is 200
    with what [List] returns, an empty parameter being no filter: the rows
    of the table that have the user id and service name given, ordered by
    start_date descending; with both parameters empty, all the rows. *)
Theorem ListSubscriptions_replies :
  forall (uuid_Parse : string -> option UUID) (userIDStr serviceName : string) (db : DB),
    let res := Endpoints.ListSubscriptions uuid_Parse userIDStr serviceName db in
    table (fst res) = table db
    /\ match user_filter uuid_Parse userIDStr with
       | None => fst res = db /\ Endpoints.status_of (snd res) = 400
       | Some userID =>
           text_ok serviceName = true ->
           exists subs,
             snd res = Endpoints.SendJSON 200 (Endpoints.Subscriptions subs)
             /\ Permutation subs (filter (passes userID (given serviceName)) (table db))
             /\ StronglySorted (fun a b => String.leb (StartDate b) (StartDate a) = true) subs
       end.
Proof.
  intros parse userIDStr serviceName db res. subst res.
  unfold Endpoints.ListSubscriptions, user_filter, given.
  assert (S : forall u n,
             Permutation (sort_rows (desc_by "start_date") (filter (passes u n) (table db)))
                         (filter (passes u n) (table db))
             /\ StronglySorted (fun a b => String.leb (StartDate b) (StartDate a) = true)
                               (sort_rows (desc_by "start_date")
                                          (filter (passes u n) (table db)))).
  { intros u n. split; [apply sort_rows_perm|].
    apply Sorted_StronglySorted.
    - intros a b c Hab Hbc. exact (string_leb_trans _ _ _ Hbc Hab).
    - apply (sort_rows_sorted (desc_by "start_date")).
      intros a b. rewrite !desc_by_start_date. apply String.leb_total. }
  destruct (String.eqb userIDStr ""); cbn [negb].
  - rewrite List_returns. split; [reflexivity|]. intros _.
    eexists. split; [reflexivity|]. destruct (String.eqb serviceName ""); apply S.
  - destruct (parse userIDStr) as [id|]; [|split; [reflexivity|split; reflexivity]].
    rewrite List_returns. split; [reflexivity|]. intros _.
    eexists. split; [reflexivity|]. destruct (String.eqb serviceName ""); apply S.
Qed.

Lemma ListSubscriptions_replies_witness :
  table (fst (Endpoints.ListSubscriptions Request.parse "" "Netflix" Sample.db))
  = table Sample.db
  /\ exists subs,
      snd (Endpoints.ListSubscriptions Request.parse "" "Netflix" Sample.db)
      = Endpoints.SendJSON 200 (Endpoints.Subscriptions subs)
      /\ Permutation subs (filter (passes None (Some "Netflix")) (table Sample.db))
      /\ StronglySorted (fun a b => String.leb (StartDate b) (StartDate a) = true) subs.
Proof.
  split.
  - exact (proj1 (ListSubscriptions_replies Request.parse "" "Netflix" Sample.db)).
  - apply (proj2 (ListSubscriptions_replies Request.parse "" "Netflix" Sample.db)).
    reflexivity.
Defined.

(** X24. The endpoint [GetTotalCost] never changes the table.  With an
    empty start_month or end_month it answers 400, and with a user_id that
    is not empty and does not parse it answers 400, both without access to
    the store.  With months that are not empty but not valid it answers 500,
    not 400, still without access to the store.  With valid months and a
    service_name parameter that is valid text for the store (valid UTF-8
    with no zero byte) it answers 200 with the total of the rows that
    overlap the range and have the user id and service name given, an empty
    parameter being no filter. *)
Theorem GetTotalCost_endpoint_replies :
  forall (uuid_Parse : string -> option UUID)
         (startMonth endMonth userIDStr serviceName : string) (db : DB),
    let res := Endpoints.GetTotalCost uuid_Parse startMonth endMonth userIDStr serviceName db in
    table (fst res) = table db
    /\ (startMonth = "" \/ endMonth = "" ->
        fst res = db /\ Endpoints.status_of (snd res) = 400)
    /\ (startMonth <> "" -> endMonth <> "" ->
        match user_filter uuid_Parse userIDStr with
        | None => fst res = db /\ Endpoints.status_of (snd res) = 400
        | Some userID =>
            (isValidMonthYear startMonth = false \/ isValidMonthYear endMonth = false ->
             fst res = db /\ Endpoints.status_of (snd res) = 500)
            /\ (isValidMonthYear startMonth = true -> isValidMonthYear endMonth = true ->
                text_ok serviceName = true ->
                snd res
                = Endpoints.SendJSON 200
                    (Endpoints.Total
                       (total_price
                          (filter (fun r => overlaps startMonth endMonth r
                                            && passes userID (given serviceName) r)
                                  (table db)))))
        end).
Proof.
  intros parse s e userIDStr serviceName db res. subst res.
  unfold Endpoints.GetTotalCost, user_filter, given.
  destruct (String.eqb_spec s "") as [->|Ns];
    [split; [reflexivity|split; [intros _; split; reflexivity|intros N; contradiction]]|].
  destruct (String.eqb_spec e "") as [->|Ne];
    [split; [reflexivity|split; [intros _; split; reflexivity|intros _ N; contradiction]]|].
  cbn [orb].
  assert (T : forall u n,
             table (fst (match Repository.GetTotalCost s e u n db with
                         | (db0, Ok total) =>
                             (db0, Endpoints.SendJSON Endpoints.StatusOK (Endpoints.Total total))
                         | (db0, Err _) =>
                             (db0, Endpoints.HttpError "Ошибка при расчёте суммы"
                                                       Endpoints.StatusInternalServerError)
                         end)) = table db).
  { intros u n. pose proof (table_GetTotalCost s e u n db) as H.
    destruct (Repository.GetTotalCost s e u n db) as [db0 [t|err]]; exact H. }
  assert (B : forall u n,
             (isValidMonthYear s = false \/ isValidMonthYear e = false ->
              Repository.GetTotalCost s e u n db = (db, Err ErrInvalidMonth))).
  { intros u n H. unfold Repository.GetTotalCost.
    destruct H as [-> | ->]; [|rewrite orb_true_r]; reflexivity. }
  split.
  - destruct (String.eqb userIDStr ""); cbn [negb]; [apply T|].
    destruct (parse userIDStr); [apply T|reflexivity].
  - split; [intros [H|H]; contradiction|]. intros _ _.
    destruct (String.eqb userIDStr ""); cbn [negb].
    + split.
      * intros H. rewrite (B _ _ H). split; reflexivity.
      * intros Hs He _. rewrite GetTotalCost_valid by assumption.
        destruct (String.eqb serviceName ""); reflexivity.
    + destruct (parse userIDStr) as [id|]; [|split; reflexivity]. split.
      * intros H. rewrite (B _ _ H). split; reflexivity.
      * intros Hs He _. rewrite GetTotalCost_valid by assumption.
        destruct (String.eqb serviceName ""); reflexivity.
Qed.

Lemma GetTotalCost_endpoint_replies_witness :
  (isValidMonthYear "2025-07" = false \/ isValidMonthYear "08-2025" = false ->
   fst (Endpoints.GetTotalCost Request.parse "2025-07" "08-2025" "" "" Sample.db) = Sample.db
   /\ Endpoints.status_of
        (snd (Endpoints.GetTotalCost Request.parse "2025-07" "08-2025" "" "" Sample.db)) = 500)
  /\ (isValidMonthYear "06-2025" = true -> isValidMonthYear "08-2025" = true ->
      text_ok "" = true ->
      snd (Endpoints.GetTotalCost Request.parse "06-2025" "08-2025" "" "" Sample.db)
      = Endpoints.SendJSON 200 (Endpoints.Total 400)).
Proof.
  split.
  - assert (A : "2025-07" <> "") by discriminate.
    assert (B : "08-2025" <> "") by discriminate.
    exact (proj1 (proj2 (proj2 (GetTotalCost_endpoint_replies
                                  Request.parse "2025-07" "08-2025" "" "" Sample.db)) A B)).
  - assert (A : "06-2025" <> "") by discriminate.
    assert (B : "08-2025" <> "") by discriminate.
    exact (proj2 (proj2 (proj2 (GetTotalCost_endpoint_replies
                                  Request.parse "06-2025" "08-2025" "" "" Sample.db)) A B)).
Defined.
